(** * disadis / package fedora: the datastream access layer

    A shallow embedding of [fedora.go]: the value types [ContentInfo] and
    [DsInfo], the derived [DsInfo.Version], the network client
    [remoteFedora] built by [NewRemote], and the in-memory [TestFedora].

    Go strings are byte sequences and are embedded as [string] (a list of
    8-bit [ascii]); [int] is the 64-bit signed integer and is embedded as
    [Z], with the range check written out where the code can observe it
    ([strconv.Atoi]); [[]byte] is [list Byte.byte]; [map[string]dsPair] is
    [gmap string dsPair]. *)

From Stdlib Require Import ZArith Ascii String List Lia.
From stdpp Require Import base gmap strings.

Local Open Scope Z_scope.

(* Let [simpl] compute the append of a string that starts with a known byte. *)
Local Arguments String.append !_ _ / : simpl nomatch.

(** ** Pieces of the Go standard library the package calls *)

(** [strings.LastIndex(s, sep)] for a one-byte separator: the index of the
    last occurrence of [c] in [s], or [-1].  [i] is the index of the head
    of the part still to scan, [found] the best index so far. *)
Fixpoint LastIndexByte_from (i : Z) (found : Z) (c : ascii) (s : string) : Z :=
  match s with
  | EmptyString => found
  | String a r =>
      LastIndexByte_from (i + 1) (if Ascii.eqb a c then i else found) c r
  end.

Definition strings_LastIndex (s : string) (c : ascii) : Z :=
  LastIndexByte_from 0 (-1) c s.

(** The slice expression [s[n:]] for [0 <= n <= len(s)]. *)
Fixpoint slice_from (s : string) (n : nat) {struct n} : string :=
  match n, s with
  | O, _ => s
  | S k, String _ r => slice_from r k
  | S _, EmptyString => EmptyString
  end.

(** The value of a decimal digit byte, as in [ch -= '0'; if ch > 9]. *)
Definition digit_val (ch : ascii) : option Z :=
  let d := Z.of_nat (nat_of_ascii ch) - 48 in
  if (0 <=? d) && (d <=? 9) then Some d else None.

(** The accumulation loop [n = n*10 + int(ch)]. *)
Fixpoint parse_digits (n : Z) (s : string) : option Z :=
  match s with
  | EmptyString => Some n
  | String ch r =>
      match digit_val ch with
      | Some d => parse_digits (n * 10 + d) r
      | None => None
      end
  end.

Definition minInt : Z := - 2 ^ 63.
Definition maxInt : Z := 2 ^ 63 - 1.

(** [strconv.Atoi]: an optional sign, then one or more decimal digits, the
    value within the range of [int].  [None] stands for a non-nil error
    (syntax or range). *)
Definition strconv_Atoi (s : string) : option Z :=
  match s with
  | EmptyString => None
  | String c r =>
      let neg := Ascii.eqb c "-" in
      let body := if neg || Ascii.eqb c "+" then r else s in
      match body with
      | EmptyString => None
      | _ =>
          match parse_digits 0 body with
          | Some un =>
              let n := if neg then - un else un in
              if (minInt <=? n) && (n <=? maxInt) then Some n else None
          | None => None
          end
      end
  end.

Definition digit_char (d : Z) : ascii := ascii_of_nat (Z.to_nat (48 + d)).

(** The digit loop of [strconv.formatBits] for base 10: digits are produced
    from the least significant one and written in front of [acc]. *)
Fixpoint formatBits (fuel : nat) (u : Z) (acc : string) : string :=
  match fuel with
  | O => acc
  | S f =>
      let acc' := String (digit_char (u mod 10)) acc in
      if u <? 10 then acc' else formatBits f (u / 10) acc'
  end.

Definition format_uint (u : Z) : string :=
  formatBits (S (Z.to_nat (Z.log2 u))) u EmptyString.

(** [fmt.Sprintf("%d", n)] for an [int]. *)
Definition Sprintf_d (n : Z) : string :=
  if n <? 0 then String "-" (format_uint (- n)) else format_uint n.

(** [bytes.Reader]: the slice being read and the read position. *)
Record bytes_Reader := { rd_s : list Byte.byte; rd_i : nat }.

Definition bytes_NewReader (b : list Byte.byte) : bytes_Reader :=
  {| rd_s := b; rd_i := 0 |}.

(** [Read] of a [bytes.Reader] into a buffer of [n] bytes: the bytes copied,
    whether [io.EOF] was returned, and the reader afterwards. *)
Definition Reader_Read (r : bytes_Reader) (n : nat)
  : list Byte.byte * bool * bytes_Reader :=
  if (length (rd_s r) <=? rd_i r)%nat then (nil, true, r)
  else
    let got := firstn n (skipn (rd_i r) (rd_s r)) in
    (got, false, {| rd_s := rd_s r; rd_i := (rd_i r + length got)%nat |}).

(** [ioutil.ReadAll]: read chunks until [io.EOF].  [None] when the fuel
    runs out before the end of the stream is seen. *)
Fixpoint ReadAll_loop (fuel : nat) (chunk : nat) (r : bytes_Reader)
    (acc : list Byte.byte) : option (list Byte.byte) :=
  match fuel with
  | O => None
  | S f =>
      match Reader_Read r chunk with
      | (_, true, _) => Some acc
      | (got, false, r') => ReadAll_loop f chunk r' (acc ++ got)
      end
  end.

Definition MinRead : nat := 512.

Definition ioutil_ReadAll (fuel : nat) (r : bytes_Reader)
  : option (list Byte.byte) :=
  ReadAll_loop fuel MinRead r nil.

(** ** The model types of the package *)

Inductive error :=
  | ErrNotFound                 (* errors.New("Item Not Found in Fedora") *)
  | ErrNotAuthorized            (* errors.New("Access Denied") *)
  | Errorf (msg : string)       (* a value made by fmt.Errorf *)
  | ErrForeign (msg : string).  (* an error made by net/http or encoding/xml *)

Definition error_Error (e : error) : string :=
  match e with
  | ErrNotFound => "Item Not Found in Fedora"
  | ErrNotAuthorized => "Access Denied"
  | Errorf msg => msg
  | ErrForeign msg => msg
  end.

Record ContentInfo := {
  Type_ : string;
  Length : string;
  Disposition : string;
  MD5 : string;
  SHA256 : string
}.

Definition ContentInfo_zero : ContentInfo :=
  {| Type_ := ""; Length := ""; Disposition := ""; MD5 := ""; SHA256 := "" |}.

Record DsInfo := {
  Label : string;
  VersionID : string;
  State : string;
  Checksum : string;
  MIMEType : string;
  Location : string;
  LocationType : string;
  Size : string
}.

Definition DsInfo_zero : DsInfo :=
  {| Label := ""; VersionID := ""; State := ""; Checksum := "";
     MIMEType := ""; Location := ""; LocationType := ""; Size := "" |}.

(** Assignments to one field of a [DsInfo] value. *)
Definition with_Label (i : DsInfo) (v : string) : DsInfo :=
  {| Label := v; VersionID := VersionID i; State := State i;
     Checksum := Checksum i; MIMEType := MIMEType i; Location := Location i;
     LocationType := LocationType i; Size := Size i |}.

Definition with_VersionID (i : DsInfo) (v : string) : DsInfo :=
  {| Label := Label i; VersionID := v; State := State i;
     Checksum := Checksum i; MIMEType := MIMEType i; Location := Location i;
     LocationType := LocationType i; Size := Size i |}.

Definition with_State (i : DsInfo) (v : string) : DsInfo :=
  {| Label := Label i; VersionID := VersionID i; State := v;
     Checksum := Checksum i; MIMEType := MIMEType i; Location := Location i;
     LocationType := LocationType i; Size := Size i |}.

Definition with_Checksum (i : DsInfo) (v : string) : DsInfo :=
  {| Label := Label i; VersionID := VersionID i; State := State i;
     Checksum := v; MIMEType := MIMEType i; Location := Location i;
     LocationType := LocationType i; Size := Size i |}.

Definition with_Location (i : DsInfo) (v : string) : DsInfo :=
  {| Label := Label i; VersionID := VersionID i; State := State i;
     Checksum := Checksum i; MIMEType := MIMEType i; Location := v;
     LocationType := LocationType i; Size := Size i |}.

Definition with_LocationType (i : DsInfo) (v : string) : DsInfo :=
  {| Label := Label i; VersionID := VersionID i; State := State i;
     Checksum := Checksum i; MIMEType := MIMEType i; Location := Location i;
     LocationType := v; Size := Size i |}.

Definition with_Size (i : DsInfo) (v : string) : DsInfo :=
  {| Label := Label i; VersionID := VersionID i; State := State i;
     Checksum := Checksum i; MIMEType := MIMEType i; Location := Location i;
     LocationType := LocationType i; Size := v |}.

(** [DsInfo.Version]. *)
Definition Version (info : DsInfo) : Z :=
  let i := strings_LastIndex (VersionID info) "." in
  if i =? -1 then -1
  else
    match strconv_Atoi (slice_from (VersionID info) (Z.to_nat (i + 1))) with
    | Some version => version
    | None => -1
    end.

(** ** The world of the network client

    A call of the client talks to the HTTP transport and owns the response
    body until it closes it or hands it to the caller.  The calls are
    embedded in a state monad over the trace of what was done to the
    world: the requests issued and the bodies closed. *)

Record Body := { body_id : nat; body_data : list Byte.byte }.

Record Response := {
  StatusCode : Z;
  Header : gmap string (list string);
  RespBody : Body
}.

Inductive Event :=
  | EvGet (url : string)
  | EvClose (body : nat).

Definition IO (A : Type) : Type := list Event -> A * list Event.

Definition ret {A} (a : A) : IO A := fun tr => (a, tr).

Definition bind {A B} (c : IO A) (k : A -> IO B) : IO B :=
  fun tr => let (a, tr') := c tr in k a tr'.

Notation "x <- c ;; k" := (bind c (fun x => k))
  (at level 100, c at next level, right associativity).

(** [Header.Get]: the first value stored under the key, or the empty
    string.  The keys the client asks for are already in canonical form. *)
Definition Header_Get (h : gmap string (list string)) (key : string) : string :=
  match h !! key with
  | Some (v :: _) => v
  | _ => ""
  end.

(** [r.Body.Close()]. *)
Definition Body_Close (b : Body) : IO unit :=
  fun tr => (tt, tr ++ [EvClose (body_id b)]).

(** What [GetDatastream] hands to its caller as [io.ReadCloser]. *)
Inductive ReadCloser :=
  | NopCloser (r : bytes_Reader)   (* ioutil.NopCloser(bytes.NewReader(b)) *)
  | HTTPBody (b : Body).           (* the body of an HTTP response, open *)

(** A call either returns or stops with a run-time panic. *)
Inductive outcome (A : Type) :=
  | Returns (a : A)
  | Panics (msg : string).
Arguments Returns {A} a.
Arguments Panics {A} msg.

Definition len (s : string) : Z := Z.of_nat (String.length s).

(** The index expression [s[i]], bounds checked. *)
Definition byte_at (s : string) (i : Z) : outcome ascii :=
  if (i <? 0) || (len s <=? i) then Panics "index out of range"
  else match String.get (Z.to_nat i) s with
       | Some c => Returns c
       | None => Panics "index out of range"
       end.

Record remoteFedora := { hostpath : string; namespace : string }.

Definition NewRemote (fedoraPath namespace : string) : outcome remoteFedora :=
  let rf := {| hostpath := fedoraPath; namespace := namespace |} in
  match byte_at (hostpath rf) (len (hostpath rf) - 1) with
  | Panics msg => Panics msg
  | Returns c =>
      if negb (Ascii.eqb c "/")
      then Returns {| hostpath := hostpath rf +:+ "/"; namespace := namespace |}
      else Returns rf
  end.

Section Remote.

(** [http.Get]: what the transport answers to a GET of a URL, given what
    has happened so far. *)
Variable transport : list Event -> string -> Response + error.

(** [xml.NewDecoder(body).Decode(&info)]: the value left in [info] and
    the error returned. *)
Variable xml_Decode : Body -> DsInfo -> DsInfo * option error.

Definition http_Get (url : string) : IO (Response + error) :=
  fun tr => (transport tr url, tr ++ [EvGet url]).

Definition remoteFedora_GetDatastream (rf : remoteFedora) (id dsname : string)
  : IO (option ReadCloser * ContentInfo * option error) :=
  let path := hostpath rf +:+ "objects/" +:+ namespace rf +:+ id
              +:+ "/datastreams/" +:+ dsname +:+ "/content" in
  let info := ContentInfo_zero in
  got <- http_Get path ;;
  match got with
  | inr err => ret (None, info, Some err)
  | inl r =>
      if negb (StatusCode r =? 200) then
        _ <- Body_Close (RespBody r) ;;
        if StatusCode r =? 404 then ret (None, info, Some ErrNotFound)
        else if StatusCode r =? 401 then ret (None, info, Some ErrNotAuthorized)
        else ret (None, info,
                  Some (Errorf ("Received status " +:+ Sprintf_d (StatusCode r)
                                +:+ " from fedora")))
      else
        let info :=
          {| Type_ := Header_Get (Header r) "Content-Type";
             Length := Header_Get (Header r) "Content-Length";
             Disposition := Header_Get (Header r) "Content-Disposition";
             MD5 := Header_Get (Header r) "X-Content-Md5";
             SHA256 := Header_Get (Header r) "X-Content-Sha256" |} in
        ret (Some (HTTPBody (RespBody r)), info, None)
  end.

Definition remoteFedora_GetDatastreamInfo (rf : remoteFedora) (id dsname : string)
  : IO (DsInfo * option error) :=
  let path := hostpath rf +:+ "objects/" +:+ namespace rf +:+ id
              +:+ "/datastreams/" +:+ dsname +:+ "?format=xml" in
  let info := DsInfo_zero in
  got <- http_Get path ;;
  match got with
  | inr err => ret (info, Some err)
  | inl r =>
      if negb (StatusCode r =? 200) then
        _ <- Body_Close (RespBody r) ;;
        if StatusCode r =? 404 then ret (info, Some ErrNotFound)
        else if StatusCode r =? 401 then ret (info, Some ErrNotAuthorized)
        else ret (info,
                  Some (Errorf ("Received status " +:+ Sprintf_d (StatusCode r)
                                +:+ " from fedora")))
      else
        let (info, err) := xml_Decode (RespBody r) info in
        _ <- Body_Close (RespBody r) ;;
        let info :=
          if String.eqb (Checksum info) "none" then with_Checksum info ""
          else info in
        ret (info, err)
  end.

End Remote.

(** ** The in-memory store *)

Record dsPair := { info : DsInfo; content : list Byte.byte }.

Record TestFedora := { data : gmap string dsPair }.

Definition NewTestFedora : TestFedora := {| data := ∅ |}.

Definition TestFedora_GetDatastream (tf : TestFedora) (id dsname : string)
  : option ReadCloser * ContentInfo * option error :=
  let ci := ContentInfo_zero in
  let key := id +:+ "/" +:+ dsname in
  match data tf !! key with
  | None => (None, ci, Some ErrNotFound)
  | Some v =>
      let ci := {| Type_ := "text/plain"; Length := Size (info v);
                   Disposition := Disposition ci; MD5 := MD5 ci;
                   SHA256 := SHA256 ci |} in
      (Some (NopCloser (bytes_NewReader (content v))), ci, None)
  end.

Definition TestFedora_GetDatastreamInfo (tf : TestFedora) (id dsname : string)
  : DsInfo * option error :=
  let key := id +:+ "/" +:+ dsname in
  match data tf !! key with
  | None => (DsInfo_zero, Some ErrNotFound)
  | Some v => (info v, None)
  end.

(** [Set] changes the map behind the pointer; here it returns the store
    after the call. *)
Definition TestFedora_Set (tf : TestFedora) (id dsname : string)
    (info : DsInfo) (value : list Byte.byte) : TestFedora :=
  let info := if String.eqb (State info) "" then with_State info "A" else info in
  let info := if String.eqb (VersionID info) ""
              then with_VersionID info (dsname +:+ ".0") else info in
  let info := if String.eqb (Location info) ""
              then with_Location info
                     (id +:+ "+" +:+ dsname +:+ "+" +:+ VersionID info)
              else info in
  let info := if String.eqb (LocationType info) ""
              then with_LocationType info "INTERNAL_ID" else info in
  let info := if String.eqb (Size info) ""
              then with_Size info (Sprintf_d (Z.of_nat (length value)))
              else info in
  let key := id +:+ "/" +:+ dsname in
  {| data := <[key := {| info := info; content := value |}]> (data tf) |}.

(** A store is built from [NewTestFedora] by a sequence of [Set] calls. *)
Record SetCall := {
  set_id : string; set_dsname : string;
  set_info : DsInfo; set_value : list Byte.byte
}.

Definition run_sets (tf : TestFedora) (calls : list SetCall) : TestFedora :=
  fold_left
    (fun tf c => TestFedora_Set tf (set_id c) (set_dsname c) (set_info c)
                   (set_value c))
    calls tf.

(** ** Concrete worlds used to run the client *)

Definition reply_body : Body :=
  {| body_id := 1; body_data := [Byte.x3c; Byte.x61; Byte.x2f; Byte.x3e] |}.

(** A server that answers every request with the given status. *)
Definition status_transport (code : Z) : list Event -> string -> Response + error :=
  fun _ _ => inl {| StatusCode := code; Header := ∅; RespBody := reply_body |}.

(** A server that cannot be reached. *)
Definition dead_transport : list Event -> string -> Response + error :=
  fun _ _ => inr (ErrForeign "dial tcp 127.0.0.1:8983: connection refused").

(** A decoder run on a complete profile document. *)
Definition decode_profile (checksum : string) : Body -> DsInfo -> DsInfo * option error :=
  fun _ i =>
    (with_Checksum (with_VersionID (with_Label i "thesis") "content.3") checksum,
     None).

(** A decoder run on a document cut off after the [dsLabel] element:
    [encoding/xml] stores each field when its element ends, so the label is
    already in [info] when the end of input is reported. *)
Definition decode_truncated : Body -> DsInfo -> DsInfo * option error :=
  fun _ i =>
    (with_Label i "thesis",
     Some (ErrForeign "XML syntax error on line 1: unexpected EOF")).

Definition localhost : remoteFedora :=
  {| hostpath := "http://localhost:8983/fedora/"; namespace := "temp:" |}.

(** ** Predicates used to state the properties *)

(** [c] occurs in [s]. *)
Fixpoint contains_byte (c : ascii) (s : string) : bool :=
  match s with
  | EmptyString => false
  | String a r => Ascii.eqb a c || contains_byte c r
  end.

(** Every byte of [s] is a decimal digit. *)
Fixpoint all_digits (s : string) : bool :=
  match s with
  | EmptyString => true
  | String a r =>
      match digit_val a with Some _ => all_digits r | None => false end
  end.

(** The value is an [int]. *)
Definition is_int (n : Z) : Prop := minInt <= n <= maxInt.

(** The last byte of a string, when it has one. *)
Fixpoint last_byte (s : string) : option ascii :=
  match s with
  | EmptyString => None
  | String c EmptyString => Some c
  | String _ r => last_byte r
  end.

(** The two request URLs of the client, as the interface documents them. *)
Definition content_url (base ns id name : string) : string :=
  base +:+ "objects/" +:+ ns +:+ id +:+ "/datastreams/" +:+ name +:+ "/content".

Definition profile_url (base ns id name : string) : string :=
  base +:+ "objects/" +:+ ns +:+ id +:+ "/datastreams/" +:+ name +:+ "?format=xml".

(** The checksum normalisation: the sentinel becomes the empty string. *)
Definition blank_none (i : DsInfo) : DsInfo :=
  if String.eqb (Checksum i) "none" then with_Checksum i "" else i.

(** ** The earlier state of the package ([src/fedora/fedora.go])

    The same package before [GetDatastreamInfo] and the checksum headers
    were added: [ContentInfo] has three fields, the in-memory store maps a
    key to the bytes alone, and its lookup returns a stream and an error.
    [NewRemote] and [remoteFedora] are the ones above, unchanged. *)
Module Early.

(** The two exported errors under their earlier names. *)
Definition FedoraNotFound : error := ErrNotFound.
Definition FedoraNotAuthorized : error := ErrNotAuthorized.

Record ContentInfo := {
  Type_ : string;
  Length : string;
  Disposition : string
}.

Definition ContentInfo_zero : ContentInfo :=
  {| Type_ := ""; Length := ""; Disposition := "" |}.

Definition remoteFedora_GetDatastream
    (transport : list Event -> string -> Response + error)
    (rf : remoteFedora) (id dsname : string)
  : IO (option ReadCloser * ContentInfo * option error) :=
  let path := hostpath rf +:+ "objects/" +:+ namespace rf +:+ id
              +:+ "/datastreams/" +:+ dsname +:+ "/content" in
  let info := ContentInfo_zero in
  got <- http_Get transport path ;;
  match got with
  | inr err => ret (None, info, Some err)
  | inl r =>
      if negb (StatusCode r =? 200) then
        _ <- Body_Close (RespBody r) ;;
        if StatusCode r =? 404 then ret (None, info, Some FedoraNotFound)
        else if StatusCode r =? 401 then ret (None, info, Some FedoraNotAuthorized)
        else ret (None, info,
                  Some (Errorf ("Got status " +:+ Sprintf_d (StatusCode r)
                                +:+ " from fedora")))
      else
        let info :=
          {| Type_ := Header_Get (Header r) "Content-Type";
             Length := Header_Get (Header r) "Content-Length";
             Disposition := Header_Get (Header r) "Content-Disposition" |} in
        ret (Some (HTTPBody (RespBody r)), info, None)
  end.

Record TestFedora := { data : gmap string (list Byte.byte) }.

Definition newTestFedora : TestFedora := {| data := ∅ |}.

Definition TestFedora_GetDatastream (tf : TestFedora) (id dsname : string)
  : option ReadCloser * option error :=
  let key := id +:+ "/" +:+ dsname in
  match data tf !! key with
  | None => (None, Some (Errorf ("No such element " +:+ key)))
  | Some v => (Some (NopCloser (bytes_NewReader v)), None)
  end.

Definition TestFedora_Set (tf : TestFedora) (id dsname : string)
    (value : list Byte.byte) : TestFedora :=
  let key := id +:+ "/" +:+ dsname in
  {| data := <[key := value]> (data tf) |}.

End Early.

(** ** The log file of the server ([main.go])

    [loginfo] holds the name of the log file and the file the standard
    logger writes to at present.  The part of the process it touches is
    the world below: the files it has opened, the output of the standard
    logger and the lines logged so far, each with the output it went to
    ([None] is standard error). *)
Module Main.

Inductive Signal :=
  | SIGHUP
  | SIGUSR1
  | SIGUSR2
  | SIGOTHER (n : Z).

#[global] Instance Signal_eq_dec : EqDecision Signal.
Proof. solve_decision. Defined.

(** An operand of [log.Println] or [log.Fatal]. *)
Inductive Arg :=
  | ArgString (s : string)
  | ArgSignal (s : Signal)
  | ArgError (e : string).

Record World := {
  next_handle : nat;                         (* files opened so far *)
  open_files : list nat;                     (* opened and not closed *)
  log_output : option nat;
  log_lines : list (option nat * list Arg)
}.

Definition start : World :=
  {| next_handle := 0; open_files := []; log_output := None; log_lines := [] |}.

(** A call returns, or the process exits inside it. *)
Inductive Result (A : Type) :=
  | Done (a : A) (w : World)
  | Exit (code : Z) (w : World).
Arguments Done {A} a w.
Arguments Exit {A} code w.

Definition log_Println (args : list Arg) (w : World) : World :=
  {| next_handle := next_handle w; open_files := open_files w;
     log_output := log_output w;
     log_lines := log_lines w ++ [(log_output w, args)] |}.

Definition log_SetOutput (h : nat) (w : World) : World :=
  {| next_handle := next_handle w; open_files := open_files w;
     log_output := Some h; log_lines := log_lines w |}.

Definition File_Close (h : nat) (w : World) : World :=
  {| next_handle := next_handle w;
     open_files := List.filter (fun h' => negb (Nat.eqb h' h)) (open_files w);
     log_output := log_output w; log_lines := log_lines w |}.

(** [log.Fatal(err)]: print, then [os.Exit(1)]. *)
Definition log_Fatal {A} (err : string) (w : World) : Result A :=
  Exit 1 (log_Println [ArgError err] w).

Record loginfo := { name : string; f : option nat }.

Definition NewReopener (filename : string) : loginfo :=
  {| name := filename; f := None |}.

Section Process.

(** Whether [os.OpenFile] of a name fails in a world, and with what. *)
Variable OpenFile_error : string -> World -> option string.

(** [os.OpenFile(name, O_RDWR|O_APPEND|O_CREATE, 0666)]: an error, or a
    file not handed out before. *)
Definition os_OpenFile (filename : string) (w : World) : (nat + string) * World :=
  match OpenFile_error filename w with
  | Some err => (inr err, w)
  | None =>
      (inl (next_handle w),
       {| next_handle := S (next_handle w);
          open_files := open_files w ++ [next_handle w];
          log_output := log_output w; log_lines := log_lines w |})
  end.

(** [Reopen] works on the [loginfo] behind the pointer; here it returns
    the [loginfo] after the call. *)
Definition Reopen (li : loginfo) (w : World) : Result loginfo :=
  if String.eqb (name li) "" then Done li w
  else
    let w := match f li with
             | Some _ => log_Println [ArgString "Reopening Log files"] w
             | None => w
             end in
    match os_OpenFile (name li) w with
    | (inr err, w) => log_Fatal err w
    | (inl newf, w) =>
        let w := log_SetOutput newf w in
        let w := match f li with
                 | Some old => File_Close old w
                 | None => w
                 end in
        Done {| name := name li; f := Some newf |} w
    end.

(** [signalHandler] over the signals the channel delivers before it is
    closed. *)
Fixpoint signalHandler (sig : list Signal) (logw : loginfo) (w : World)
  : Result loginfo :=
  match sig with
  | [] => Done logw w
  | s :: sig' =>
      let w := log_Println [ArgString "Got"; ArgSignal s] w in
      match s with
      | SIGUSR1 =>
          match Reopen logw w with
          | Done logw' w' => signalHandler sig' logw' w'
          | Exit code w' => Exit code w'
          end
      | _ => signalHandler sig' logw w
      end
  end.

End Process.

(** The signals the log reports, in the order of the lines. *)
Definition logged_signals (lines : list (option nat * list Arg)) : list Signal :=
  flat_map (fun l => match snd l with
                     | [ArgString "Got"; ArgSignal s] => [s]
                     | _ => []
                     end) lines.

(** The logger writes to the one file that is open, or to standard error
    with no file open; handles not yet handed out are not in use. *)
Definition one_log_file (w : World) : Prop :=
  open_files w = match log_output w with Some h => [h] | None => [] end /\
  Forall (fun h => (h < next_handle w)%nat) (open_files w).

(** [open_fails_after k]: opening succeeds until [k] files were opened. *)
Definition open_fails_after (k : nat) : string -> World -> option string :=
  fun _ w => if (k <=? next_handle w)%nat
             then Some "open disadis.log: too many open files" else None.

Definition never_fails : string -> World -> option string := fun _ _ => None.

End Main.

(** ** Further predicates *)

(** The five fields [Set] fills in are all present. *)
Definition backfilled (i : DsInfo) : Prop :=
  State i <> "" /\ VersionID i <> "" /\ Location i <> "" /\
  LocationType i <> "" /\ Size i <> "".

(** [stored] is the [DsInfo] that [Set(id, name, info0, value)] puts in the
    map: [info0] with each of the five fields replaced by its default when
    it is empty. *)
Definition stored_by_Set (id name : string) (info0 : DsInfo)
    (value : list Byte.byte) (stored : DsInfo) : Prop :=
  Label stored = Label info0 /\
  Checksum stored = Checksum info0 /\
  MIMEType stored = MIMEType info0 /\
  State stored = (if String.eqb (State info0) "" then "A" else State info0) /\
  VersionID stored =
    (if String.eqb (VersionID info0) "" then name +:+ ".0"
     else VersionID info0) /\
  Location stored =
    (if String.eqb (Location info0) ""
     then id +:+ "+" +:+ name +:+ "+" +:+ VersionID stored
     else Location info0) /\
  LocationType stored =
    (if String.eqb (LocationType info0) "" then "INTERNAL_ID"
     else LocationType info0) /\
  Size stored =
    (if String.eqb (Size info0) "" then Sprintf_d (Z.of_nat (length value))
     else Size info0).

(** The key under which the store keeps a pair. *)
Definition key_of (id name : string) : string := id +:+ "/" +:+ name.

(** * Properties *)

(** ** Strings: last index and slicing *)

Lemma LastIndexByte_from_absent c s :
  contains_byte c s = false ->
  forall i found, LastIndexByte_from i found c s = found.
Proof.
  induction s as [|a r IH]; simpl; intros Habs i found; [reflexivity|].
  apply orb_false_iff in Habs as [Hac Hr].
  rewrite Hac. now apply IH.
Qed.

Lemma LastIndexByte_from_last c t :
  contains_byte c t = false ->
  forall s i found,
    LastIndexByte_from i found c (s +:+ String c t) = i + len s.
Proof.
  intros Habs. induction s as [|a r IH]; intros i found.
  - simpl. rewrite Ascii.eqb_refl, LastIndexByte_from_absent by assumption.
    unfold len. simpl. lia.
  - simpl. rewrite IH. unfold len. simpl String.length. lia.
Qed.

Lemma slice_from_past_separator c t s :
  slice_from (s +:+ String c t) (S (String.length s)) = t.
Proof. induction s as [|a r IH]; simpl; [reflexivity | exact IH]. Qed.

(** ** Decimal numbers: printing and parsing *)

Lemma digit_val_char d : 0 <= d <= 9 -> digit_val (digit_char d) = Some d.
Proof.
  intros Hd.
  assert (H : d = 0 \/ d = 1 \/ d = 2 \/ d = 3 \/ d = 4 \/ d = 5 \/ d = 6
              \/ d = 7 \/ d = 8 \/ d = 9) by lia.
  repeat (destruct H as [-> | H]; [reflexivity|]). now subst.
Qed.

Lemma digit_is_no_sign c d :
  digit_val c = Some d -> Ascii.eqb c "-" = false /\ Ascii.eqb c "+" = false.
Proof.
  intros H. split.
  - destruct (Ascii.eqb_spec c "-") as [-> | _]; [discriminate H | reflexivity].
  - destruct (Ascii.eqb_spec c "+") as [-> | _]; [discriminate H | reflexivity].
Qed.

Lemma digit_is_no_dot c d : digit_val c = Some d -> Ascii.eqb c "." = false.
Proof.
  intros H.
  destruct (Ascii.eqb_spec c ".") as [-> | _]; [discriminate H | reflexivity].
Qed.

Lemma parse_digits_app s t : forall a,
  parse_digits a (s +:+ t) =
  match parse_digits a s with
  | Some b => parse_digits b t
  | None => None
  end.
Proof.
  induction s as [|c r IH]; intros a; simpl; [reflexivity|].
  destruct (digit_val c); [apply IH | reflexivity].
Qed.

Lemma append_assoc (a b c : string) : (a +:+ b) +:+ c = a +:+ (b +:+ c).
Proof. induction a as [|x a IH]; simpl; [reflexivity | now rewrite IH]. Qed.

Lemma formatBits_acc fuel : forall u acc,
  formatBits fuel u acc = formatBits fuel u "" +:+ acc.
Proof.
  induction fuel as [|f IH]; intros u acc; simpl; [reflexivity|].
  destruct (u <? 10); [reflexivity|].
  rewrite (IH _ (String _ acc)), (IH _ (String _ "")), append_assoc.
  reflexivity.
Qed.

Lemma parse_formatBits fuel : forall u,
  0 <= u < 10 ^ Z.of_nat fuel ->
  parse_digits 0 (formatBits fuel u "") = Some u.
Proof.
  induction fuel as [|f IH]; intros u Hu.
  - simpl in *. f_equal. lia.
  - cbn [formatBits].
    assert (Hd : 0 <= u mod 10 <= 9) by (pose proof (Z.mod_pos_bound u 10); lia).
    destruct (Z.ltb_spec u 10) as [Hlt | Hge].
    + cbn [parse_digits]. rewrite digit_val_char by assumption.
      rewrite Z.mod_small by lia. reflexivity.
    + rewrite formatBits_acc, parse_digits_app, IH.
      * cbn [parse_digits]. rewrite digit_val_char by assumption.
        f_equal. pose proof (Z.div_mod u 10). lia.
      * rewrite Nat2Z.inj_succ, Z.pow_succ_r in Hu by lia.
        split; [apply Z.div_pos; lia | apply Z.div_lt_upper_bound; lia].
Qed.

Lemma format_uint_fuel u : 0 <= u -> u < 10 ^ Z.of_nat (S (Z.to_nat (Z.log2 u))).
Proof.
  intros Hu. pose proof (Z.log2_nonneg u) as Hl.
  rewrite Nat2Z.inj_succ, Z2Nat.id by assumption.
  destruct (Z.eq_dec u 0) as [-> | Hnz]; [reflexivity|].
  destruct (Z.log2_spec u) as [_ Hup]; [lia|].
  eapply Z.lt_le_trans; [exact Hup|].
  apply Z.pow_le_mono_l. lia.
Qed.

Lemma parse_format_uint u : 0 <= u -> parse_digits 0 (format_uint u) = Some u.
Proof.
  intros Hu. apply parse_formatBits. split; [assumption|].
  now apply format_uint_fuel.
Qed.

Lemma all_digits_formatBits fuel : forall u acc,
  all_digits (formatBits fuel u acc) = all_digits acc.
Proof.
  induction fuel as [|f IH]; intros u acc; simpl; [reflexivity|].
  assert (Hd : 0 <= u mod 10 <= 9) by (pose proof (Z.mod_pos_bound u 10); lia).
  destruct (u <? 10); [|rewrite IH]; simpl;
    now rewrite digit_val_char by assumption.
Qed.

Lemma all_digits_format_uint u : all_digits (format_uint u) = true.
Proof. unfold format_uint. now rewrite all_digits_formatBits. Qed.

Lemma formatBits_head f : forall u acc,
  exists c r d, formatBits (S f) u acc = String c r /\ digit_val c = Some d.
Proof.
  induction f as [|f IH]; intros u acc.
  - assert (Hd : 0 <= u mod 10 <= 9) by (pose proof (Z.mod_pos_bound u 10); lia).
    exists (digit_char (u mod 10)), acc, (u mod 10). split.
    + simpl. now destruct (u <? 10).
    + now apply digit_val_char.
  - assert (Hd : 0 <= u mod 10 <= 9) by (pose proof (Z.mod_pos_bound u 10); lia).
    change (formatBits (S (S f)) u acc)
      with (if u <? 10 then String (digit_char (u mod 10)) acc
            else formatBits (S f) (u / 10) (String (digit_char (u mod 10)) acc)).
    destruct (u <? 10); [|apply IH].
    exists (digit_char (u mod 10)), acc, (u mod 10).
    split; [reflexivity | now apply digit_val_char].
Qed.

Lemma all_digits_no_dot s : all_digits s = true -> contains_byte "." s = false.
Proof.
  induction s as [|c r IH]; simpl; [reflexivity|].
  destruct (digit_val c) eqn:Hc; [|discriminate].
  intros Hr. rewrite (digit_is_no_dot _ _ Hc). now apply IH.
Qed.

Lemma Sprintf_d_no_dot n : contains_byte "." (Sprintf_d n) = false.
Proof.
  unfold Sprintf_d. destruct (n <? 0); simpl;
    apply all_digits_no_dot, all_digits_format_uint.
Qed.

(** Parsing what [%d] prints gives the number back. *)
Lemma Atoi_Sprintf_d n : is_int n -> strconv_Atoi (Sprintf_d n) = Some n.
Proof.
  intros [Hlo Hhi]. unfold Sprintf_d.
  destruct (Z.ltb_spec n 0) as [Hneg | Hpos].
  - unfold strconv_Atoi. cbn [Ascii.eqb Bool.eqb orb].
    destruct (formatBits_head (Z.to_nat (Z.log2 (- n))) (- n) "")
      as (c & r & d & Heq & _).
    fold (format_uint (- n)) in Heq.
    pose proof (parse_format_uint (- n)) as Hp. rewrite Heq in *.
    rewrite Hp by lia. rewrite Z.opp_involutive.
    destruct (Z.leb_spec minInt n); [|lia].
    destruct (Z.leb_spec n maxInt); [reflexivity | lia].
  - destruct (formatBits_head (Z.to_nat (Z.log2 n)) n "")
      as (c & r & d & Heq & Hc).
    fold (format_uint n) in Heq.
    pose proof (parse_format_uint n Hpos) as Hp. rewrite Heq in *.
    unfold strconv_Atoi.
    destruct (digit_is_no_sign _ _ Hc) as [-> ->]. cbn [orb].
    rewrite Hp.
    destruct (Z.leb_spec minInt n); [|lia].
    destruct (Z.leb_spec n maxInt); [reflexivity | lia].
Qed.

(** ** [DsInfo.Version] *)

Lemma len_nonneg s : 0 <= len s.
Proof. unfold len. lia. Qed.

(** A version id without a dot has no version number. *)
Lemma Version_no_dot i :
  contains_byte "." (VersionID i) = false -> Version i = -1.
Proof.
  intros Habs. unfold Version, strings_LastIndex.
  now rewrite LastIndexByte_from_absent.
Qed.

(** With a dot, the version number is whatever [Atoi] makes of the part
    after the last one. *)
Lemma Version_after_last_dot i name suffix :
  VersionID i = name +:+ "." +:+ suffix ->
  contains_byte "." suffix = false ->
  Version i = match strconv_Atoi suffix with Some n => n | None => -1 end.
Proof.
  intros Hid Habs. unfold Version, strings_LastIndex. rewrite Hid.
  change (name +:+ "." +:+ suffix) with (name +:+ String "." suffix).
  rewrite LastIndexByte_from_last by assumption.
  pose proof (len_nonneg name) as Hlen.
  destruct (Z.eqb_spec (0 + len name) (-1)) as [Hbad | _]; [lia|].
  replace (Z.to_nat (0 + len name + 1)) with (S (String.length name))
    by (unfold len; lia).
  now rewrite slice_from_past_separator.
Qed.

(** C3. [Version] is a function of [VersionID] alone.  When [VersionID] is
    [name.suffix] with no dot in [suffix], it returns the integer [Atoi]
    reads in [suffix]; in particular [name.N] with [N] printed in decimal
    gives [N] for every [int].  It returns [-1] when there is no dot and
    when [Atoi] rejects the suffix.  ["content.7"] gives [7], ["content"]
    and ["content.x"] give [-1]. *)
Theorem Version_of_VersionID :
  (forall a b, VersionID a = VersionID b -> Version a = Version b) /\
  (forall i name suffix n,
      VersionID i = name +:+ "." +:+ suffix ->
      contains_byte "." suffix = false ->
      strconv_Atoi suffix = Some n -> Version i = n) /\
  (forall i name n,
      is_int n -> VersionID i = name +:+ "." +:+ Sprintf_d n -> Version i = n) /\
  (forall i, contains_byte "." (VersionID i) = false -> Version i = -1) /\
  (forall i name suffix,
      VersionID i = name +:+ "." +:+ suffix ->
      contains_byte "." suffix = false ->
      strconv_Atoi suffix = None -> Version i = -1) /\
  Version (with_VersionID DsInfo_zero "content.7") = 7 /\
  Version (with_VersionID DsInfo_zero "content") = -1 /\
  Version (with_VersionID DsInfo_zero "content.x") = -1.
Proof.
  split; [|split; [|split; [|split; [|split]]]].
  - intros a b Hab. unfold Version. now rewrite Hab.
  - intros i name suffix n Hid Habs Hn.
    rewrite (Version_after_last_dot i name suffix Hid Habs). now rewrite Hn.
  - intros i name n Hn Hid.
    rewrite (Version_after_last_dot i name _ Hid (Sprintf_d_no_dot n)).
    now rewrite Atoi_Sprintf_d.
  - exact Version_no_dot.
  - intros i name suffix Hid Habs Hn.
    rewrite (Version_after_last_dot i name suffix Hid Habs). now rewrite Hn.
  - repeat split; reflexivity.
Qed.

Lemma Version_of_VersionID_witness :
  Version (with_VersionID DsInfo_zero "DS1.42") = 42 /\
  Version (with_VersionID DsInfo_zero "a.b.-9") = -9 /\
  Version (with_VersionID DsInfo_zero "RELS-EXT") = -1 /\
  Version (with_VersionID DsInfo_zero "content.7a") = -1.
Proof.
  destruct Version_of_VersionID as (_ & Hsome & Hprint & Hnodot & Hnone & _).
  split; [|split; [|split]].
  - apply (Hsome _ "DS1" "42" 42); reflexivity.
  - apply (Hprint _ "a.b" (-9)); [unfold is_int, minInt, maxInt; lia | reflexivity].
  - apply Hnodot. reflexivity.
  - apply (Hnone _ "content" "7a"); reflexivity.
Defined.

(** ** The network client *)

Section RemoteProperties.

Variable transport : list Event -> string -> Response + error.
Variable xml_Decode : Body -> DsInfo -> DsInfo * option error.

Lemma GetDatastream_bad_status rf id dsname tr r :
  transport tr (content_url (hostpath rf) (namespace rf) id dsname) = inl r ->
  StatusCode r <> 200 ->
  remoteFedora_GetDatastream transport rf id dsname tr =
  (None, ContentInfo_zero,
   Some (if StatusCode r =? 404 then ErrNotFound
         else if StatusCode r =? 401 then ErrNotAuthorized
         else Errorf ("Received status " +:+ Sprintf_d (StatusCode r)
                      +:+ " from fedora")),
   tr ++ [EvGet (content_url (hostpath rf) (namespace rf) id dsname);
          EvClose (body_id (RespBody r))]).
Proof.
  intros Hget Hcode.
  unfold remoteFedora_GetDatastream, bind, http_Get, content_url in *.
  rewrite Hget. destruct (Z.eqb_spec (StatusCode r) 200) as [|_]; [contradiction|].
  cbn [negb]. unfold Body_Close, ret. rewrite <- app_assoc. cbn [app].
  destruct (StatusCode r =? 404); [reflexivity|].
  destruct (StatusCode r =? 401); reflexivity.
Qed.

Lemma GetDatastreamInfo_bad_status rf id dsname tr r :
  transport tr (profile_url (hostpath rf) (namespace rf) id dsname) = inl r ->
  StatusCode r <> 200 ->
  remoteFedora_GetDatastreamInfo transport xml_Decode rf id dsname tr =
  (DsInfo_zero,
   Some (if StatusCode r =? 404 then ErrNotFound
         else if StatusCode r =? 401 then ErrNotAuthorized
         else Errorf ("Received status " +:+ Sprintf_d (StatusCode r)
                      +:+ " from fedora")),
   tr ++ [EvGet (profile_url (hostpath rf) (namespace rf) id dsname);
          EvClose (body_id (RespBody r))]).
Proof.
  intros Hget Hcode.
  unfold remoteFedora_GetDatastreamInfo, bind, http_Get, profile_url in *.
  rewrite Hget. destruct (Z.eqb_spec (StatusCode r) 200) as [|_]; [contradiction|].
  cbn [negb]. unfold Body_Close, ret. rewrite <- app_assoc. cbn [app].
  destruct (StatusCode r =? 404); [reflexivity|].
  destruct (StatusCode r =? 401); reflexivity.
Qed.

Lemma GetDatastreamInfo_transport_error rf id dsname tr e :
  transport tr (profile_url (hostpath rf) (namespace rf) id dsname) = inr e ->
  remoteFedora_GetDatastreamInfo transport xml_Decode rf id dsname tr =
  (DsInfo_zero, Some e,
   tr ++ [EvGet (profile_url (hostpath rf) (namespace rf) id dsname)]).
Proof.
  intros Hget.
  unfold remoteFedora_GetDatastreamInfo, bind, http_Get, profile_url in *.
  now rewrite Hget.
Qed.

Lemma GetDatastreamInfo_decoded rf id dsname tr r :
  transport tr (profile_url (hostpath rf) (namespace rf) id dsname) = inl r ->
  StatusCode r = 200 ->
  remoteFedora_GetDatastreamInfo transport xml_Decode rf id dsname tr =
  (blank_none (fst (xml_Decode (RespBody r) DsInfo_zero)),
   snd (xml_Decode (RespBody r) DsInfo_zero),
   tr ++ [EvGet (profile_url (hostpath rf) (namespace rf) id dsname);
          EvClose (body_id (RespBody r))]).
Proof.
  intros Hget Hcode.
  unfold remoteFedora_GetDatastreamInfo, bind, http_Get, profile_url in *.
  rewrite Hget, Hcode. cbn [Z.eqb Pos.eqb negb].
  destruct (xml_Decode (RespBody r) DsInfo_zero) as [decoded err].
  unfold Body_Close, ret, blank_none. rewrite <- app_assoc. reflexivity.
Qed.

End RemoteProperties.

(** C1. When the request of [GetDatastream] or [GetDatastreamInfo] is
    answered with a status other than 200, the call issues its one GET,
    closes the response body, and returns no stream, the zero
    [ContentInfo] or [DsInfo], and the error for the status: [ErrNotFound]
    for 404, [ErrNotAuthorized] for 401, and otherwise an error whose text
    carries the status code in decimal. *)
Theorem bad_status_closes_body_and_maps_error
    (transport : list Event -> string -> Response + error)
    (xml_Decode : Body -> DsInfo -> DsInfo * option error)
    (rf : remoteFedora) (id dsname : string) (tr : list Event) (r : Response) :
  StatusCode r <> 200 ->
  exists err,
    (StatusCode r = 404 -> err = ErrNotFound) /\
    (StatusCode r = 401 -> err = ErrNotAuthorized) /\
    (StatusCode r <> 404 -> StatusCode r <> 401 ->
       err = Errorf ("Received status " +:+ Sprintf_d (StatusCode r)
                     +:+ " from fedora")) /\
    (transport tr (content_url (hostpath rf) (namespace rf) id dsname) = inl r ->
       remoteFedora_GetDatastream transport rf id dsname tr =
       (None, ContentInfo_zero, Some err,
        tr ++ [EvGet (content_url (hostpath rf) (namespace rf) id dsname);
               EvClose (body_id (RespBody r))])) /\
    (transport tr (profile_url (hostpath rf) (namespace rf) id dsname) = inl r ->
       remoteFedora_GetDatastreamInfo transport xml_Decode rf id dsname tr =
       (DsInfo_zero, Some err,
        tr ++ [EvGet (profile_url (hostpath rf) (namespace rf) id dsname);
               EvClose (body_id (RespBody r))])).
Proof.
  intros Hcode.
  exists (if StatusCode r =? 404 then ErrNotFound
          else if StatusCode r =? 401 then ErrNotAuthorized
          else Errorf ("Received status " +:+ Sprintf_d (StatusCode r)
                       +:+ " from fedora")).
  split; [|split; [|split; [|split]]].
  - now intros ->.
  - now intros ->.
  - intros H404 H401.
    destruct (Z.eqb_spec (StatusCode r) 404); [contradiction|].
    destruct (Z.eqb_spec (StatusCode r) 401); [contradiction|]. reflexivity.
  - intros Hget. now apply GetDatastream_bad_status.
  - intros Hget. now apply GetDatastreamInfo_bad_status.
Qed.

Lemma bad_status_closes_body_and_maps_error_witness :
  remoteFedora_GetDatastream (status_transport 500) localhost "123" "content" [] =
  (None, ContentInfo_zero, Some (Errorf "Received status 500 from fedora"),
   [EvGet "http://localhost:8983/fedora/objects/temp:123/datastreams/content/content";
    EvClose 1]) /\
  remoteFedora_GetDatastreamInfo (status_transport 404) (decode_profile "none")
    localhost "123" "content" [] =
  (DsInfo_zero, Some ErrNotFound,
   [EvGet "http://localhost:8983/fedora/objects/temp:123/datastreams/content?format=xml";
    EvClose 1]).
Proof.
  split.
  - destruct (bad_status_closes_body_and_maps_error (status_transport 500)
                (decode_profile "none") localhost "123" "content" []
                {| StatusCode := 500; Header := ∅; RespBody := reply_body |})
      as (err & _ & _ & Herr & Hcontent & _).
    + simpl. lia.
    + rewrite (Hcontent eq_refl), Herr by (simpl; lia). reflexivity.
  - destruct (bad_status_closes_body_and_maps_error (status_transport 404)
                (decode_profile "none") localhost "123" "content" []
                {| StatusCode := 404; Header := ∅; RespBody := reply_body |})
      as (err & Herr & _ & _ & _ & Hprofile).
    + simpl. lia.
    + rewrite (Hprofile eq_refl), Herr by reflexivity. reflexivity.
Defined.

(** C2, as the claim states it, fails: a profile document cut off after
    its first element makes [GetDatastreamInfo] return the decoder's error
    together with a [DsInfo] whose label is already filled in. *)
Lemma decode_error_returns_partial_DsInfo :
  ~ (forall transport xml_Decode rf id dsname tr,
       snd (fst (remoteFedora_GetDatastreamInfo transport xml_Decode
                   rf id dsname tr)) <> None ->
       fst (fst (remoteFedora_GetDatastreamInfo transport xml_Decode
                   rf id dsname tr)) = DsInfo_zero).
Proof.
  intros Hclaim.
  specialize (Hclaim (status_transport 200) decode_truncated localhost
                "123" "content" []).
  vm_compute in Hclaim.
  assert (Hnil : Some (ErrForeign "XML syntax error on line 1: unexpected EOF")
                 <> None) by discriminate.
  specialize (Hclaim Hnil). discriminate Hclaim.
Qed.

(** C2, amended.  [GetDatastream] never returns a stream or a filled
    [ContentInfo] with an error.  [GetDatastreamInfo] returns the zero
    [DsInfo] with the error of a failed request and with the error of a
    status other than 200; when the decoder fails it returns the decoder's
    error with whatever the decoder left in [info], the checksum
    normalised. *)
Theorem results_returned_with_an_error
    (transport : list Event -> string -> Response + error)
    (xml_Decode : Body -> DsInfo -> DsInfo * option error)
    (rf : remoteFedora) (id dsname : string) (tr : list Event) :
  (forall rc ci e tr',
      remoteFedora_GetDatastream transport rf id dsname tr =
        (rc, ci, Some e, tr') ->
      rc = None /\ ci = ContentInfo_zero) /\
  (forall i e tr',
      remoteFedora_GetDatastreamInfo transport xml_Decode rf id dsname tr =
        (i, Some e, tr') ->
      match transport tr (profile_url (hostpath rf) (namespace rf) id dsname) with
      | inr e' => e = e' /\ i = DsInfo_zero
      | inl r =>
          if StatusCode r =? 200
          then snd (xml_Decode (RespBody r) DsInfo_zero) = Some e
               /\ i = blank_none (fst (xml_Decode (RespBody r) DsInfo_zero))
          else i = DsInfo_zero
      end).
Proof.
  split.
  - intros rc ci e tr'.
    unfold remoteFedora_GetDatastream, bind, http_Get.
    destruct (transport tr _) as [r | e0]; [|unfold ret; intros [= <- <- _ _]; auto].
    destruct (StatusCode r =? 200); cbn [negb].
    + unfold ret. intros [= _ _ Hnil _].
    + unfold Body_Close, ret.
      destruct (StatusCode r =? 404); [intros [= <- <- _ _]; auto|].
      destruct (StatusCode r =? 401); intros [= <- <- _ _]; auto.
  - intros i e tr' Hrun.
    destruct (transport tr _) as [r | e0] eqn:Hget.
    + destruct (Z.eqb_spec (StatusCode r) 200) as [Hok | Hbad].
      * rewrite (GetDatastreamInfo_decoded _ _ _ _ _ _ _ Hget Hok) in Hrun.
        injection Hrun as Hi He _. now rewrite <- Hi, <- He.
      * rewrite (GetDatastreamInfo_bad_status _ _ _ _ _ _ _ Hget Hbad) in Hrun.
        now injection Hrun as <- _ _.
    + rewrite (GetDatastreamInfo_transport_error _ _ _ _ _ _ _ Hget) in Hrun.
      now injection Hrun as <- <- _.
Qed.

Lemma results_returned_with_an_error_witness :
  (remoteFedora_GetDatastream (status_transport 401) localhost "123" "content" [] =
     (None, ContentInfo_zero, Some ErrNotAuthorized,
      [EvGet "http://localhost:8983/fedora/objects/temp:123/datastreams/content/content";
       EvClose 1]) /\
   remoteFedora_GetDatastreamInfo (status_transport 200) decode_truncated
     localhost "123" "content" [] =
     (with_Label DsInfo_zero "thesis",
      Some (ErrForeign "XML syntax error on line 1: unexpected EOF"),
      [EvGet "http://localhost:8983/fedora/objects/temp:123/datastreams/content?format=xml";
       EvClose 1])) /\
  ((@None ReadCloser = None /\ ContentInfo_zero = ContentInfo_zero) /\
   (snd (decode_truncated reply_body DsInfo_zero) =
      Some (ErrForeign "XML syntax error on line 1: unexpected EOF") /\
    with_Label DsInfo_zero "thesis" =
      blank_none (fst (decode_truncated reply_body DsInfo_zero)))).
Proof.
  split; [split; reflexivity|].
  split.
  - exact (proj1 (results_returned_with_an_error (status_transport 401)
                    decode_truncated localhost "123" "content" [])
             None ContentInfo_zero ErrNotAuthorized _ eq_refl).
  - exact (proj2 (results_returned_with_an_error (status_transport 200)
                    decode_truncated localhost "123" "content" [])
             (with_Label DsInfo_zero "thesis") _ _ eq_refl).
Defined.

(** C4. When the profile document decodes without error, a decoded
    checksum of ["none"] is returned as the empty string, the other fields
    as decoded; with any other checksum the decoded value is returned as it
    is. *)
Theorem checksum_none_is_blanked
    (transport : list Event -> string -> Response + error)
    (xml_Decode : Body -> DsInfo -> DsInfo * option error)
    (rf : remoteFedora) (id dsname : string) (tr : list Event)
    (r : Response) (decoded : DsInfo) :
  transport tr (profile_url (hostpath rf) (namespace rf) id dsname) = inl r ->
  StatusCode r = 200 ->
  xml_Decode (RespBody r) DsInfo_zero = (decoded, None) ->
  exists returned tr',
    remoteFedora_GetDatastreamInfo transport xml_Decode rf id dsname tr =
      (returned, None, tr') /\
    (Checksum decoded = "none" ->
       Checksum returned = "" /\ returned = with_Checksum decoded "") /\
    (Checksum decoded <> "none" -> returned = decoded).
Proof.
  intros Hget Hok Hdec.
  rewrite (GetDatastreamInfo_decoded _ _ _ _ _ _ _ Hget Hok), Hdec.
  cbn [fst snd]. eexists _, _. split; [reflexivity|]. unfold blank_none.
  destruct (String.eqb_spec (Checksum decoded) "none") as [Heq | Hne].
  - split; [intros _; split; reflexivity | intros Hne; contradiction].
  - split; [intros Heq; contradiction | reflexivity].
Qed.

Lemma checksum_none_is_blanked_witness :
  Checksum (fst (fst (remoteFedora_GetDatastreamInfo (status_transport 200)
                        (decode_profile "none") localhost "123" "content" [])))
    = "" /\
  fst (fst (remoteFedora_GetDatastreamInfo (status_transport 200)
              (decode_profile "d41d8cd9") localhost "123" "content" []))
    = fst (decode_profile "d41d8cd9" reply_body DsInfo_zero).
Proof.
  split.
  - destruct (checksum_none_is_blanked (status_transport 200)
                (decode_profile "none") localhost "123" "content" []
                {| StatusCode := 200; Header := ∅; RespBody := reply_body |}
                _ eq_refl eq_refl eq_refl)
      as (returned & tr' & Hrun & Hnone & _).
    rewrite Hrun. cbn [fst]. apply Hnone. reflexivity.
  - destruct (checksum_none_is_blanked (status_transport 200)
                (decode_profile "d41d8cd9") localhost "123" "content" []
                {| StatusCode := 200; Header := ∅; RespBody := reply_body |}
                _ eq_refl eq_refl eq_refl)
      as (returned & tr' & Hrun & _ & Hother).
    rewrite Hrun. cbn [fst]. apply Hother. discriminate.
Defined.

(** ** [NewRemote] *)

Lemma get_last_byte s : String.get (String.length s - 1) s = last_byte s.
Proof.
  induction s as [|c r IH]; [reflexivity|].
  cbn [String.length]. rewrite Nat.sub_1_r. cbn [Nat.pred].
  destruct r as [|c' r']; [reflexivity|].
  cbn [String.length] in *. rewrite Nat.sub_1_r in IH. cbn [Nat.pred] in IH.
  cbn [String.get last_byte]. exact IH.
Qed.

Lemma last_byte_nonempty s : s <> "" -> exists c, last_byte s = Some c.
Proof.
  induction s as [|c r IH]; [congruence|]. intros _.
  destruct r as [|c' r']; [now exists c|].
  destruct IH as [c0 H0]; [discriminate|]. now exists c0.
Qed.

Lemma last_byte_app_byte s c : last_byte (s +:+ String c "") = Some c.
Proof.
  induction s as [|a r IH]; [reflexivity|].
  destruct r as [|a' r']; [reflexivity | exact IH].
Qed.

Lemma byte_at_last s :
  byte_at s (len s - 1) =
  match last_byte s with
  | Some c => Returns c
  | None => Panics "index out of range"
  end.
Proof.
  destruct s as [|c r]; [reflexivity|].
  unfold byte_at, len.
  destruct (Z.ltb_spec (Z.of_nat (String.length (String c r)) - 1) 0) as [Hneg|_];
    [cbn [String.length] in Hneg; lia|].
  destruct (Z.leb_spec (Z.of_nat (String.length (String c r)))
              (Z.of_nat (String.length (String c r)) - 1)) as [Hle|_]; [lia|].
  cbn [orb].
  replace (Z.to_nat (Z.of_nat (String.length (String c r)) - 1))
    with (String.length (String c r) - 1)%nat by lia.
  rewrite get_last_byte.
  destruct (last_byte_nonempty (String c r)) as [c0 ->]; [discriminate|].
  reflexivity.
Qed.

Lemma NewRemote_by_last_byte fedoraPath ns :
  NewRemote fedoraPath ns =
  match last_byte fedoraPath with
  | None => Panics "index out of range"
  | Some c =>
      if Ascii.eqb c "/"
      then Returns {| hostpath := fedoraPath; namespace := ns |}
      else Returns {| hostpath := fedoraPath +:+ "/"; namespace := ns |}
  end.
Proof.
  unfold NewRemote. cbn [hostpath]. rewrite byte_at_last.
  destruct (last_byte fedoraPath) as [c|]; [|reflexivity].
  now destruct (Ascii.eqb c "/").
Qed.

(** C8. For a non-empty base URL [NewRemote] returns a client whose base
    path ends in a slash: the URL itself when it ends in one, the URL with
    one slash appended otherwise.  [GetDatastream] on that client issues
    exactly one GET, to the plain concatenation of the base path,
    ["objects/"], the namespace, the id, ["/datastreams/"], the name and
    ["/content"]. *)
Theorem NewRemote_base_path_and_request_url (fedoraPath ns : string) :
  fedoraPath <> "" ->
  exists rf,
    NewRemote fedoraPath ns = Returns rf /\
    namespace rf = ns /\
    last_byte (hostpath rf) = Some "/"%char /\
    (last_byte fedoraPath = Some "/"%char -> hostpath rf = fedoraPath) /\
    (last_byte fedoraPath <> Some "/"%char ->
       hostpath rf = fedoraPath +:+ "/") /\
    forall transport id name tr,
    exists rest,
      snd (remoteFedora_GetDatastream transport rf id name tr) =
        tr ++ EvGet (hostpath rf +:+ "objects/" +:+ ns +:+ id
                     +:+ "/datastreams/" +:+ name +:+ "/content") :: rest /\
      (rest = [] \/ exists b, rest = [EvClose b]).
Proof.
  intros Hne. rewrite NewRemote_by_last_byte.
  destruct (last_byte_nonempty fedoraPath Hne) as [c Hc]. rewrite Hc.
  assert (Hreq : forall rf, namespace rf = ns ->
            forall transport id name tr,
            exists rest,
              snd (remoteFedora_GetDatastream transport rf id name tr) =
                tr ++ EvGet (hostpath rf +:+ "objects/" +:+ ns +:+ id
                             +:+ "/datastreams/" +:+ name +:+ "/content") :: rest /\
              (rest = [] \/ exists b, rest = [EvClose b])).
  { intros rf <- transport id name tr.
    unfold remoteFedora_GetDatastream, bind, http_Get.
    destruct (transport tr _) as [r | e]; [|exists []; split; [reflexivity | now left]].
    destruct (StatusCode r =? 200); cbn [negb].
    - exists []. split; [reflexivity | now left].
    - exists [EvClose (body_id (RespBody r))]. unfold Body_Close, ret.
      split; [|right; now eexists].
      destruct (StatusCode r =? 404); [|destruct (StatusCode r =? 401)];
        cbn [snd]; now rewrite <- app_assoc. }
  destruct (Ascii.eqb_spec c "/") as [-> | Hslash].
  - eexists. split; [reflexivity|]. cbn [hostpath namespace].
    split; [reflexivity|]. split; [exact Hc|]. split; [reflexivity|].
    split; [intros Hno; congruence|]. now apply Hreq.
  - eexists. split; [reflexivity|]. cbn [hostpath namespace].
    split; [reflexivity|]. split; [apply last_byte_app_byte|].
    split; [intros Hyes; congruence|].
    split; [reflexivity|]. now apply Hreq.
Qed.

Lemma NewRemote_base_path_and_request_url_witness :
  exists rf,
    NewRemote "http://localhost:8983/fedora" "temp:" = Returns rf /\
    hostpath rf = "http://localhost:8983/fedora/" /\
    last_byte (hostpath rf) = Some "/"%char.
Proof.
  destruct (NewRemote_base_path_and_request_url "http://localhost:8983/fedora"
              "temp:") as (rf & Hnew & _ & Hlast & _ & Happ & _); [discriminate|].
  exists rf. split; [exact Hnew|]. split; [|exact Hlast].
  apply Happ. discriminate.
Defined.

(** C10. [NewRemote] indexes the path at [len - 1], which is [-1] for the
    empty string: there the call panics with an index out of range instead
    of returning.  For every non-empty path it returns a client. *)
Theorem NewRemote_needs_nonempty_path (ns : string) :
  len "" - 1 = -1 /\
  byte_at "" (-1) = Panics "index out of range" /\
  NewRemote "" ns = Panics "index out of range" /\
  (forall fedoraPath, fedoraPath <> "" ->
     exists rf, NewRemote fedoraPath ns = Returns rf).
Proof.
  repeat split.
  intros fedoraPath Hne. rewrite NewRemote_by_last_byte.
  destruct (last_byte_nonempty fedoraPath Hne) as [c ->].
  destruct (Ascii.eqb c "/"); eexists; reflexivity.
Qed.

Lemma NewRemote_needs_nonempty_path_witness :
  exists rf, NewRemote "http://localhost:8983/fedora/" "temp:" = Returns rf.
Proof.
  apply (proj2 (proj2 (proj2 (NewRemote_needs_nonempty_path "temp:")))).
  discriminate.
Defined.

(** ** Reading a stream to its end *)

Lemma take_then_drop_taken (l : list Byte.byte) (k : nat) :
  take k l ++ drop (length (take k l)) l = l.
Proof.
  rewrite length_take. destruct (Nat.le_gt_cases k (length l)) as [Hle | Hgt].
  - rewrite Nat.min_l by assumption. apply take_drop.
  - rewrite Nat.min_r, take_ge, drop_all by lia. apply app_nil_r.
Qed.

(** From any position, the loop returns what it had plus the unread rest,
    provided the fuel exceeds the number of unread bytes. *)
Lemma ReadAll_loop_reads_rest (chunk : nat) (s : list Byte.byte) :
  (0 < chunk)%nat ->
  forall fuel i acc,
    (i <= length s)%nat -> (length s - i < fuel)%nat ->
    ReadAll_loop fuel chunk {| rd_s := s; rd_i := i |} acc = Some (acc ++ drop i s).
Proof.
  intros Hchunk. induction fuel as [|f IH]; intros i acc Hi Hfuel; [lia|].
  cbn [ReadAll_loop]. unfold Reader_Read. cbn [rd_s rd_i].
  destruct (Nat.leb_spec (length s) i) as [Hend | Hmore].
  - rewrite drop_ge by assumption. now rewrite app_nil_r.
  - assert (Hgot : (1 <= length (take chunk (drop i s)) <= length s - i)%nat).
    { rewrite length_take, length_drop. lia. }
    rewrite IH by lia.
    rewrite <- app_assoc, <- drop_drop, take_then_drop_taken.
    reflexivity.
Qed.

Lemma ReadAll_NewReader (b : list Byte.byte) (fuel : nat) :
  (length b + 2 <= fuel)%nat ->
  ioutil_ReadAll fuel (bytes_NewReader b) = Some b.
Proof.
  intros Hfuel. unfold ioutil_ReadAll, bytes_NewReader.
  rewrite ReadAll_loop_reads_rest; [reflexivity | unfold MinRead; lia | lia | lia].
Qed.

(** ** The in-memory store *)

Lemma Version_dot_zero i name : VersionID i = name +:+ ".0" -> Version i = 0.
Proof.
  intros Hid. now rewrite (Version_after_last_dot i name "0" Hid eq_refl).
Qed.

(** What [Set] leaves in the map under the key of the pair. *)
Lemma Set_stores tf id name info0 value :
  exists stored,
    data (TestFedora_Set tf id name info0 value) !! (id +:+ "/" +:+ name)
      = Some {| info := stored; content := value |} /\
    Label stored = Label info0 /\
    Checksum stored = Checksum info0 /\
    MIMEType stored = MIMEType info0 /\
    State stored = (if String.eqb (State info0) "" then "A" else State info0) /\
    VersionID stored =
      (if String.eqb (VersionID info0) "" then name +:+ ".0"
       else VersionID info0) /\
    Location stored =
      (if String.eqb (Location info0) ""
       then id +:+ "+" +:+ name +:+ "+" +:+ VersionID stored
       else Location info0) /\
    LocationType stored =
      (if String.eqb (LocationType info0) "" then "INTERNAL_ID"
       else LocationType info0) /\
    Size stored =
      (if String.eqb (Size info0) "" then Sprintf_d (Z.of_nat (length value))
       else Size info0).
Proof.
  unfold TestFedora_Set. cbn [data]. rewrite lookup_insert_eq.
  eexists. split; [reflexivity|].
  destruct info0 as [lb vid st ck mt loc lt sz]. cbn [State].
  destruct (String.eqb st ""); cbn [VersionID with_State];
    destruct (String.eqb vid ""); cbn [Location with_VersionID with_State];
    destruct (String.eqb loc "");
    cbn [LocationType with_Location with_VersionID with_State];
    destruct (String.eqb lt "");
    cbn [Size with_LocationType with_Location with_VersionID with_State];
    destruct (String.eqb sz ""); repeat split.
Qed.

Lemma Set_Set tf id name info1 value1 info0 value :
  TestFedora_Set (TestFedora_Set tf id name info1 value1) id name info0 value
  = TestFedora_Set tf id name info0 value.
Proof.
  unfold TestFedora_Set. cbn [data]. now rewrite insert_insert_eq.
Qed.

(** C5, as the claim states it, fails: a [Size] given to [Set] is kept, so
    the [Length] reported need not be the length of the bytes. *)
Lemma Set_keeps_a_given_Size :
  ~ (forall tf id name info0 bytes,
       Length (snd (fst (TestFedora_GetDatastream
                           (TestFedora_Set tf id name info0 bytes) id name)))
       = Sprintf_d (Z.of_nat (length bytes))).
Proof.
  intros Hclaim.
  specialize (Hclaim NewTestFedora "vecnet:d217qs82g" "content"
                (with_Size DsInfo_zero "999") [Byte.x68; Byte.x69]).
  vm_compute in Hclaim. discriminate Hclaim.
Qed.

(** C5, amended.  [Set] followed by [GetDatastream] under the same pair
    returns, whatever the store held before, a stream over exactly the
    bytes given (reading it to the end yields them), the type
    ["text/plain"], and as [Length] the [Size] given in [info] when that is
    not empty and the decimal length of the bytes when it is empty.  The
    store keeps nothing of an earlier entry under the key. *)
Theorem Set_then_GetDatastream
    (tf : TestFedora) (id name : string) (info0 : DsInfo)
    (bytes : list Byte.byte) :
  exists r ci,
    TestFedora_GetDatastream (TestFedora_Set tf id name info0 bytes) id name
      = (Some (NopCloser r), ci, None) /\
    (forall fuel, (length bytes + 2 <= fuel)%nat ->
       ioutil_ReadAll fuel r = Some bytes) /\
    Type_ ci = "text/plain" /\
    (Size info0 = "" -> Length ci = Sprintf_d (Z.of_nat (length bytes))) /\
    (Size info0 <> "" -> Length ci = Size info0) /\
    Disposition ci = "" /\ MD5 ci = "" /\ SHA256 ci = "" /\
    (forall info1 bytes1,
       TestFedora_Set (TestFedora_Set tf id name info1 bytes1) id name info0 bytes
       = TestFedora_Set tf id name info0 bytes).
Proof.
  destruct (Set_stores tf id name info0 bytes)
    as (stored & Hlook & _ & _ & _ & _ & _ & _ & _ & Hsize).
  unfold TestFedora_GetDatastream. rewrite Hlook. cbn [info content].
  eexists _, _. split; [reflexivity|]. cbn [Type_ Length Disposition MD5 SHA256].
  split; [intros fuel Hfuel; now apply ReadAll_NewReader|].
  split; [reflexivity|]. rewrite Hsize.
  destruct (String.eqb_spec (Size info0) "") as [Hempty | Hgiven].
  - split; [reflexivity|]. split; [intros Hne; contradiction|].
    repeat split. intros info1 bytes1. apply Set_Set.
  - split; [intros He; contradiction|]. split; [reflexivity|].
    repeat split. intros info1 bytes1. apply Set_Set.
Qed.

Lemma Set_then_GetDatastream_witness :
  ioutil_ReadAll 4
    (bytes_NewReader [Byte.x68; Byte.x69]) = Some [Byte.x68; Byte.x69] /\
  Length (snd (fst (TestFedora_GetDatastream
                      (TestFedora_Set NewTestFedora "vecnet:d217qs82g" "content"
                         DsInfo_zero [Byte.x68; Byte.x69])
                      "vecnet:d217qs82g" "content"))) = "2".
Proof.
  destruct (Set_then_GetDatastream NewTestFedora "vecnet:d217qs82g" "content"
              DsInfo_zero [Byte.x68; Byte.x69])
    as (r & ci & Hrun & Hread & _ & Hlen & _).
  injection Hrun as <- <-. split.
  - apply Hread. simpl. lia.
  - exact (Hlen eq_refl).
Defined.

(** C6. [Set] stores [info] with each of the five fields [State],
    [VersionID], [Location], [LocationType] and [Size] replaced by its
    default when it is empty and kept when it is not; [Label], [Checksum]
    and [MIMEType] are stored as given.  The default location is built from
    the version id that is stored.  With an empty [VersionID], the stored
    version id is [name.0] and its [Version] is [0]. *)
Theorem Set_backfills_defaults
    (tf : TestFedora) (id name : string) (info0 : DsInfo)
    (value : list Byte.byte) :
  exists stored,
    TestFedora_GetDatastreamInfo (TestFedora_Set tf id name info0 value) id name
      = (stored, None) /\
    (State info0 = "" -> State stored = "A") /\
    (State info0 <> "" -> State stored = State info0) /\
    (VersionID info0 = "" -> VersionID stored = name +:+ ".0") /\
    (VersionID info0 <> "" -> VersionID stored = VersionID info0) /\
    (Location info0 = "" ->
       Location stored = id +:+ "+" +:+ name +:+ "+" +:+ VersionID stored) /\
    (Location info0 <> "" -> Location stored = Location info0) /\
    (LocationType info0 = "" -> LocationType stored = "INTERNAL_ID") /\
    (LocationType info0 <> "" -> LocationType stored = LocationType info0) /\
    (Size info0 = "" -> Size stored = Sprintf_d (Z.of_nat (length value))) /\
    (Size info0 <> "" -> Size stored = Size info0) /\
    Label stored = Label info0 /\
    Checksum stored = Checksum info0 /\
    MIMEType stored = MIMEType info0 /\
    (VersionID info0 = "" -> Version stored = 0).
Proof.
  destruct (Set_stores tf id name info0 value)
    as (stored & Hlook & Hlb & Hck & Hmt & Hst & Hvid & Hloc & Hlt & Hsz).
  exists stored. unfold TestFedora_GetDatastreamInfo. rewrite Hlook.
  cbn [info]. split; [reflexivity|].
  rewrite Hst, Hloc, Hlt, Hsz.
  assert (Hver : VersionID info0 = "" -> Version stored = 0).
  { intros He. apply (Version_dot_zero stored name).
    rewrite Hvid, He. reflexivity. }
  rewrite Hvid at 1 2.
  destruct (String.eqb_spec (State info0) "");
    destruct (String.eqb_spec (VersionID info0) "");
    destruct (String.eqb_spec (Location info0) "");
    destruct (String.eqb_spec (LocationType info0) "");
    destruct (String.eqb_spec (Size info0) "");
    repeat split; intros; (reflexivity || contradiction || auto).
Qed.

Lemma Set_backfills_defaults_witness :
  exists stored,
    TestFedora_GetDatastreamInfo
      (TestFedora_Set NewTestFedora "vecnet:d217qs82g" "content"
         (with_Label DsInfo_zero "thesis") [Byte.x68; Byte.x69])
      "vecnet:d217qs82g" "content" = (stored, None) /\
    State stored = "A" /\
    VersionID stored = "content.0" /\
    Location stored = "vecnet:d217qs82g+content+" +:+ VersionID stored /\
    LocationType stored = "INTERNAL_ID" /\
    Size stored = "2" /\
    Version stored = 0.
Proof.
  destruct (Set_backfills_defaults NewTestFedora "vecnet:d217qs82g" "content"
              (with_Label DsInfo_zero "thesis") [Byte.x68; Byte.x69])
    as (stored & Hrun & Hst & _ & Hvid & _ & Hloc & _ & Hlt & _ & Hsz & _
        & _ & _ & _ & Hver).
  exists stored. split; [exact Hrun|].
  split; [exact (Hst eq_refl)|]. split; [exact (Hvid eq_refl)|].
  split; [exact (Hloc eq_refl)|]. split; [exact (Hlt eq_refl)|].
  split; [exact (Hsz eq_refl) | exact (Hver eq_refl)].
Defined.

(** ** Keys that are absent, keys that collide *)

Lemma run_sets_snoc tf calls c :
  run_sets tf (calls ++ [c]) =
  TestFedora_Set (run_sets tf calls) (set_id c) (set_dsname c) (set_info c)
    (set_value c).
Proof. unfold run_sets. now rewrite fold_left_app. Qed.

Lemma Set_lookup_other tf id name info0 value key :
  id +:+ "/" +:+ name <> key ->
  data (TestFedora_Set tf id name info0 value) !! key = data tf !! key.
Proof.
  intros Hne. unfold TestFedora_Set. cbn [data]. now rewrite lookup_insert_ne.
Qed.




Lemma key_of_shifted_slash id name rest :
  id +:+ "/" +:+ (name +:+ "/" +:+ rest) = (id +:+ "/" +:+ name) +:+ "/" +:+ rest.
Proof.
  change (?a +:+ "/" +:+ ?b) with (a +:+ ("/" +:+ b)).
  now rewrite !append_assoc.
Qed.

(** What the two lookups return under a pair whose key holds an entry. *)
Lemma lookups_of_entry tf id name stored value :
  data tf !! (id +:+ "/" +:+ name) = Some {| info := stored; content := value |} ->
  TestFedora_GetDatastreamInfo tf id name = (stored, None) /\
  TestFedora_GetDatastream tf id name
    = (Some (NopCloser (bytes_NewReader value)),
       {| Type_ := "text/plain"; Length := Size stored; Disposition := "";
          MD5 := ""; SHA256 := "" |},
       None).
Proof.
  intros Hlook. unfold TestFedora_GetDatastreamInfo, TestFedora_GetDatastream.
  now rewrite Hlook.
Qed.

(** C9. The key of a pair is [id/name], and two different pairs can have
    one key: [(id, name/rest)] and [(id/name, rest)] always do, and so do
    [("a", "b/c")] and [("a/b", "c")].  After a [Set] under one pair the
    lookups under the other pair return the entry that [Set] stored: the
    [DsInfo] given with its defaults filled in from the pair of the [Set],
    and a stream over the bytes given; for [Set("a", "b/c")] of the zero
    [DsInfo] and one byte, the lookup under [("a/b", "c")] returns the
    version id [b/c.0], the location [a+b/c+b/c.0] and the size [1].  A
    [Set] under the other pair replaces the entry, and the lookups under
    the first pair then return what the second [Set] stored. *)
Theorem composite_key_collides :
  ("a", "b/c") <> ("a/b", "c") /\
  "a" +:+ "/" +:+ "b/c" = "a/b" +:+ "/" +:+ "c" /\
  (forall id name rest tf info0 value,
     TestFedora_GetDatastream
       (TestFedora_Set tf id (name +:+ "/" +:+ rest) info0 value)
       (id +:+ "/" +:+ name) rest
     = TestFedora_GetDatastream
         (TestFedora_Set tf id (name +:+ "/" +:+ rest) info0 value)
         id (name +:+ "/" +:+ rest) /\
     TestFedora_GetDatastreamInfo
       (TestFedora_Set tf id (name +:+ "/" +:+ rest) info0 value)
       (id +:+ "/" +:+ name) rest
     = TestFedora_GetDatastreamInfo
         (TestFedora_Set tf id (name +:+ "/" +:+ rest) info0 value)
         id (name +:+ "/" +:+ rest) /\
     exists stored,
       stored_by_Set id (name +:+ "/" +:+ rest) info0 value stored /\
       TestFedora_GetDatastreamInfo
         (TestFedora_Set tf id (name +:+ "/" +:+ rest) info0 value)
         (id +:+ "/" +:+ name) rest
       = (stored, None) /\
       TestFedora_GetDatastream
         (TestFedora_Set tf id (name +:+ "/" +:+ rest) info0 value)
         (id +:+ "/" +:+ name) rest
       = (Some (NopCloser (bytes_NewReader value)),
          {| Type_ := "text/plain"; Length := Size stored; Disposition := "";
             MD5 := ""; SHA256 := "" |},
          None)) /\
  (forall tf info0 value,
     exists stored,
       stored_by_Set "a" "b/c" info0 value stored /\
       TestFedora_GetDatastreamInfo (TestFedora_Set tf "a" "b/c" info0 value)
         "a/b" "c" = (stored, None) /\
       TestFedora_GetDatastreamInfo (TestFedora_Set tf "a" "b/c" info0 value)
         "a" "b/c" = (stored, None) /\
       TestFedora_GetDatastream (TestFedora_Set tf "a" "b/c" info0 value)
         "a/b" "c"
       = TestFedora_GetDatastream (TestFedora_Set tf "a" "b/c" info0 value)
           "a" "b/c" /\
       TestFedora_GetDatastream (TestFedora_Set tf "a" "b/c" info0 value)
         "a/b" "c"
       = (Some (NopCloser (bytes_NewReader value)),
          {| Type_ := "text/plain"; Length := Size stored; Disposition := "";
             MD5 := ""; SHA256 := "" |},
          None) /\
       fst (fst (TestFedora_GetDatastream
                   (TestFedora_Set tf "a" "b/c" info0 value) "a/b" "c"))
       = Some (NopCloser (bytes_NewReader value))) /\
  (forall tf,
     TestFedora_GetDatastreamInfo
       (TestFedora_Set tf "a" "b/c" DsInfo_zero [Byte.x68]) "a/b" "c"
     = ({| Label := ""; VersionID := "b/c.0"; State := "A"; Checksum := "";
           MIMEType := ""; Location := "a+b/c+b/c.0";
           LocationType := "INTERNAL_ID"; Size := "1" |}, None) /\
     TestFedora_GetDatastream
       (TestFedora_Set tf "a" "b/c" DsInfo_zero [Byte.x68]) "a/b" "c"
     = (Some (NopCloser (bytes_NewReader [Byte.x68])),
        {| Type_ := "text/plain"; Length := "1"; Disposition := "";
           MD5 := ""; SHA256 := "" |},
        None)) /\
  (forall tf info1 value1 info2 value2,
     TestFedora_Set (TestFedora_Set tf "a" "b/c" info1 value1)
       "a/b" "c" info2 value2
     = TestFedora_Set tf "a/b" "c" info2 value2) /\
  (forall tf info1 value1 info2 value2,
     exists stored2,
       stored_by_Set "a/b" "c" info2 value2 stored2 /\
       TestFedora_GetDatastreamInfo
         (TestFedora_Set (TestFedora_Set tf "a" "b/c" info1 value1)
            "a/b" "c" info2 value2)
         "a" "b/c"
       = (stored2, None) /\
       TestFedora_GetDatastream
         (TestFedora_Set (TestFedora_Set tf "a" "b/c" info1 value1)
            "a/b" "c" info2 value2)
         "a" "b/c"
       = (Some (NopCloser (bytes_NewReader value2)),
          {| Type_ := "text/plain"; Length := Size stored2; Disposition := "";
             MD5 := ""; SHA256 := "" |},
          None)).
Proof.
  split; [discriminate|]. split; [reflexivity|].
  split; [|split; [|split; [|split]]].
  - intros id name rest tf info0 value.
    destruct (Set_stores tf id (name +:+ "/" +:+ rest) info0 value)
      as (stored & Hlook & Hfields).
    rewrite key_of_shifted_slash in Hlook.
    destruct (lookups_of_entry _ (id +:+ "/" +:+ name) rest _ _ Hlook)
      as [Hinfo Hcontent].
    split; [|split].
    + unfold TestFedora_GetDatastream. now rewrite key_of_shifted_slash.
    + unfold TestFedora_GetDatastreamInfo. now rewrite key_of_shifted_slash.
    + exists stored. split; [exact Hfields|]. now split.
  - intros tf info0 value.
    destruct (Set_stores tf "a" "b/c" info0 value) as (stored & Hlook & Hfields).
    destruct (lookups_of_entry _ "a" "b/c" _ _ Hlook) as [Hinfo Hcontent].
    destruct (lookups_of_entry _ "a/b" "c" _ _ Hlook) as [Hinfo' Hcontent'].
    exists stored. split; [exact Hfields|].
    split; [exact Hinfo'|]. split; [exact Hinfo|].
    split; [now rewrite Hcontent, Hcontent'|].
    split; [exact Hcontent'|]. now rewrite Hcontent'.
  - intros tf.
    unfold TestFedora_GetDatastreamInfo, TestFedora_GetDatastream,
      TestFedora_Set.
    cbn [data]. change ("a/b" +:+ "/" +:+ "c") with ("a" +:+ "/" +:+ "b/c").
    rewrite lookup_insert_eq. split; reflexivity.
  - intros tf info1 value1 info2 value2. unfold TestFedora_Set. cbn [data].
    change ("a" +:+ "/" +:+ "b/c") with ("a/b" +:+ "/" +:+ "c").
    now rewrite insert_insert_eq.
  - intros tf info1 value1 info2 value2.
    destruct (Set_stores (TestFedora_Set tf "a" "b/c" info1 value1)
                "a/b" "c" info2 value2) as (stored2 & Hlook & Hfields).
    destruct (lookups_of_entry _ "a" "b/c" _ _ Hlook) as [Hinfo Hcontent].
    exists stored2. split; [exact Hfields|]. now split.
Qed.

(** * Further properties of the package *)

(** ** The network client: bodies, checksums, status texts *)

(** X1. Every body the transport delivers is closed once or handed to the
    caller, never both: [GetDatastream] issues one GET and closes the body
    exactly when the status is not 200, which is exactly when it returns
    no stream; [GetDatastreamInfo] issues one GET and closes the body once
    whatever the status and whatever the decoder reports.  When the
    request itself fails there is no body and nothing is closed. *)
Theorem received_body_is_closed_or_handed_over
    (transport : list Event -> string -> Response + error)
    (xml_Decode : Body -> DsInfo -> DsInfo * option error)
    (rf : remoteFedora) (id dsname : string) (tr : list Event) :
  snd (remoteFedora_GetDatastream transport rf id dsname tr) =
    tr ++ EvGet (content_url (hostpath rf) (namespace rf) id dsname)
       :: match transport tr (content_url (hostpath rf) (namespace rf) id dsname) with
          | inl r => if StatusCode r =? 200 then []
                     else [EvClose (body_id (RespBody r))]
          | inr _ => []
          end /\
  fst (fst (fst (remoteFedora_GetDatastream transport rf id dsname tr))) =
    match transport tr (content_url (hostpath rf) (namespace rf) id dsname) with
    | inl r => if StatusCode r =? 200 then Some (HTTPBody (RespBody r)) else None
    | inr _ => None
    end /\
  snd (remoteFedora_GetDatastreamInfo transport xml_Decode rf id dsname tr) =
    tr ++ EvGet (profile_url (hostpath rf) (namespace rf) id dsname)
       :: match transport tr (profile_url (hostpath rf) (namespace rf) id dsname) with
          | inl r => [EvClose (body_id (RespBody r))]
          | inr _ => []
          end.
Proof.
  split; [|split].
  - unfold remoteFedora_GetDatastream, bind, http_Get, content_url.
    destruct (transport tr _) as [r | e]; [|reflexivity].
    destruct (StatusCode r =? 200); cbn [negb]; [reflexivity|].
    unfold Body_Close, ret.
    destruct (StatusCode r =? 404); [|destruct (StatusCode r =? 401)];
      cbn [snd]; now rewrite <- app_assoc.
  - unfold remoteFedora_GetDatastream, bind, http_Get, content_url.
    destruct (transport tr _) as [r | e]; [|reflexivity].
    destruct (StatusCode r =? 200); cbn [negb]; [reflexivity|].
    unfold Body_Close, ret.
    destruct (StatusCode r =? 404); [|destruct (StatusCode r =? 401)];
      reflexivity.
  - destruct (transport tr (profile_url _ _ _ _)) as [r | e] eqn:Hget.
    + destruct (Z.eq_dec (StatusCode r) 200) as [Hok | Hbad].
      * now rewrite (GetDatastreamInfo_decoded _ xml_Decode _ _ _ _ _ Hget Hok).
      * now rewrite (GetDatastreamInfo_bad_status _ xml_Decode _ _ _ _ _ Hget Hbad).
    + now rewrite (GetDatastreamInfo_transport_error _ xml_Decode _ _ _ _ _ Hget).
Qed.

(** X2. On status 200 [GetDatastream] returns the body of the response, still
    open, with no error; the five fields of [ContentInfo] are the first
    values of the five headers, so a response without headers gives the
    zero [ContentInfo]. *)
Theorem GetDatastream_success
    (transport : list Event -> string -> Response + error)
    (rf : remoteFedora) (id dsname : string) (tr : list Event) (r : Response) :
  transport tr (content_url (hostpath rf) (namespace rf) id dsname) = inl r ->
  StatusCode r = 200 ->
  remoteFedora_GetDatastream transport rf id dsname tr =
    (Some (HTTPBody (RespBody r)),
     {| Type_ := Header_Get (Header r) "Content-Type";
        Length := Header_Get (Header r) "Content-Length";
        Disposition := Header_Get (Header r) "Content-Disposition";
        MD5 := Header_Get (Header r) "X-Content-Md5";
        SHA256 := Header_Get (Header r) "X-Content-Sha256" |},
     None,
     tr ++ [EvGet (content_url (hostpath rf) (namespace rf) id dsname)]) /\
  (Header r = ∅ ->
     snd (fst (fst (remoteFedora_GetDatastream transport rf id dsname tr)))
     = ContentInfo_zero).
Proof.
  intros Hget Hok.
  unfold remoteFedora_GetDatastream, bind, http_Get, content_url in *.
  rewrite Hget, Hok. cbn [Z.eqb Pos.eqb negb]. unfold ret.
  split; [reflexivity|]. intros ->. reflexivity.
Qed.

Lemma GetDatastream_success_witness :
  remoteFedora_GetDatastream
    (fun _ _ => inl {| StatusCode := 200;
                       Header := {[ "Content-Type" := ["application/pdf"; "text/html"];
                                    "X-Content-Md5" := ["d41d8cd9"] ]};
                       RespBody := reply_body |})
    localhost "123" "content" [] =
  (Some (HTTPBody reply_body),
   {| Type_ := "application/pdf"; Length := ""; Disposition := "";
      MD5 := "d41d8cd9"; SHA256 := "" |},
   None,
   [EvGet "http://localhost:8983/fedora/objects/temp:123/datastreams/content/content"]).
Proof.
  exact (proj1 (GetDatastream_success _ localhost "123" "content" []
                  {| StatusCode := 200;
                     Header := {[ "Content-Type" := ["application/pdf"; "text/html"];
                                  "X-Content-Md5" := ["d41d8cd9"] ]};
                     RespBody := reply_body |} eq_refl eq_refl)).
Defined.

(** X3. [GetDatastreamInfo] never returns the checksum ["none"]: not when the
    document decodes, not when the decoder fails, not on any error. *)
Theorem GetDatastreamInfo_never_returns_none
    (transport : list Event -> string -> Response + error)
    (xml_Decode : Body -> DsInfo -> DsInfo * option error)
    (rf : remoteFedora) (id dsname : string) (tr : list Event) :
  Checksum (fst (fst (remoteFedora_GetDatastreamInfo transport xml_Decode
                        rf id dsname tr))) <> "none".
Proof.
  destruct (transport tr (profile_url (hostpath rf) (namespace rf) id dsname))
    as [r | e] eqn:Hget.
  - destruct (Z.eq_dec (StatusCode r) 200) as [Hok | Hbad].
    + rewrite (GetDatastreamInfo_decoded _ xml_Decode _ _ _ _ _ Hget Hok).
      cbn [fst]. unfold blank_none.
      destruct (String.eqb_spec (Checksum (fst (xml_Decode (RespBody r) DsInfo_zero)))
                  "none") as [Heq | Hne]; [discriminate | exact Hne].
    + rewrite (GetDatastreamInfo_bad_status _ xml_Decode _ _ _ _ _ Hget Hbad).
      discriminate.
  - rewrite (GetDatastreamInfo_transport_error _ xml_Decode _ _ _ _ _ Hget).
    discriminate.
Qed.

Lemma length_append (a b : string) :
  String.length (a +:+ b) = (String.length a + String.length b)%nat.
Proof. induction a as [|x a IH]; simpl; [reflexivity | now rewrite IH]. Qed.

Lemma append_cancel_r (s a b : string) : a +:+ s = b +:+ s -> a = b.
Proof.
  revert b. induction a as [|x a IH]; intros [|y b] Heq.
  - reflexivity.
  - apply (f_equal String.length) in Heq.
    rewrite (length_append (String y b)) in Heq. simpl in Heq. lia.
  - apply (f_equal String.length) in Heq.
    rewrite (length_append (String x a)) in Heq. simpl in Heq. lia.
  - simpl in Heq. injection Heq as -> Heq. f_equal. now apply IH.
Qed.

Lemma Sprintf_d_inj a b : is_int a -> is_int b -> Sprintf_d a = Sprintf_d b -> a = b.
Proof.
  intros Ha Hb Heq. pose proof (Atoi_Sprintf_d a Ha) as Hpa.
  rewrite Heq, (Atoi_Sprintf_d b Hb) in Hpa. congruence.
Qed.

Lemma equal_errors_equal_status
    (t1 t2 : list Event -> string -> Response + error)
    (rf : remoteFedora) (id dsname : string) (tr : list Event)
    (r1 r2 : Response) :
  t1 tr (content_url (hostpath rf) (namespace rf) id dsname) = inl r1 ->
  t2 tr (content_url (hostpath rf) (namespace rf) id dsname) = inl r2 ->
  StatusCode r1 <> 200 -> StatusCode r2 <> 200 ->
  is_int (StatusCode r1) -> is_int (StatusCode r2) ->
  snd (fst (remoteFedora_GetDatastream t1 rf id dsname tr)) =
  snd (fst (remoteFedora_GetDatastream t2 rf id dsname tr)) ->
  StatusCode r1 = StatusCode r2.
Proof.
  intros H1 H2 Hb1 Hb2 Hi1 Hi2.
  rewrite (GetDatastream_bad_status _ _ _ _ _ _ H1 Hb1),
          (GetDatastream_bad_status _ _ _ _ _ _ H2 Hb2).
  cbn [fst snd].
  destruct (Z.eqb_spec (StatusCode r1) 404) as [E1 | N1];
    destruct (Z.eqb_spec (StatusCode r2) 404) as [E2 | N2];
    [congruence | destruct (StatusCode r2 =? 401); discriminate
     | destruct (StatusCode r1 =? 401); discriminate |].
  destruct (Z.eqb_spec (StatusCode r1) 401) as [F1 | M1];
    destruct (Z.eqb_spec (StatusCode r2) 401) as [F2 | M2];
    [congruence | discriminate | discriminate |].
  intros [= Heq]. apply append_cancel_r in Heq.
  now apply Sprintf_d_inj.
Qed.

(** X4. The error of a call tells the status apart: for two answers with
    different statuses, neither of them 200, [GetDatastream] returns
    different errors. *)
Theorem distinct_status_distinct_error
    (t1 t2 : list Event -> string -> Response + error)
    (rf : remoteFedora) (id dsname : string) (tr : list Event)
    (r1 r2 : Response) :
  t1 tr (content_url (hostpath rf) (namespace rf) id dsname) = inl r1 ->
  t2 tr (content_url (hostpath rf) (namespace rf) id dsname) = inl r2 ->
  StatusCode r1 <> 200 -> StatusCode r2 <> 200 ->
  is_int (StatusCode r1) -> is_int (StatusCode r2) ->
  StatusCode r1 <> StatusCode r2 ->
  snd (fst (remoteFedora_GetDatastream t1 rf id dsname tr)) <>
  snd (fst (remoteFedora_GetDatastream t2 rf id dsname tr)).
Proof.
  intros H1 H2 Hb1 Hb2 Hi1 Hi2 Hne Heq. apply Hne.
  exact (equal_errors_equal_status t1 t2 rf id dsname tr r1 r2
           H1 H2 Hb1 Hb2 Hi1 Hi2 Heq).
Qed.

Lemma distinct_status_distinct_error_witness :
  snd (fst (remoteFedora_GetDatastream (status_transport 500) localhost
              "123" "content" [])) <>
  snd (fst (remoteFedora_GetDatastream (status_transport 503) localhost
              "123" "content" [])).
Proof.
  apply (distinct_status_distinct_error (status_transport 500)
           (status_transport 503) localhost "123" "content" []
           {| StatusCode := 500; Header := ∅; RespBody := reply_body |}
           {| StatusCode := 503; Header := ∅; RespBody := reply_body |});
    try reflexivity; try (simpl; lia);
    unfold is_int, minInt, maxInt; simpl; lia.
Defined.

(** ** [NewRemote] and [Version], the other way round *)

(** X5. [NewRemote] only ever adds one slash at the end, and a path it has
    returned is returned unchanged when given again. *)
Theorem NewRemote_idempotent (fedoraPath ns : string) (rf : remoteFedora) :
  NewRemote fedoraPath ns = Returns rf ->
  (hostpath rf = fedoraPath \/ hostpath rf = fedoraPath +:+ "/") /\
  NewRemote (hostpath rf) ns = Returns rf.
Proof.
  rewrite NewRemote_by_last_byte.
  destruct (last_byte fedoraPath) as [c|] eqn:Hlast; [|discriminate].
  destruct (Ascii.eqb_spec c "/") as [-> | Hc]; intros [= <-]; cbn [hostpath].
  - split; [now left|]. rewrite NewRemote_by_last_byte, Hlast. reflexivity.
  - split; [now right|].
    rewrite NewRemote_by_last_byte, last_byte_app_byte. reflexivity.
Qed.

Lemma NewRemote_idempotent_witness :
  NewRemote "http://localhost:8983/fedora/" "temp:" = Returns localhost.
Proof.
  apply (NewRemote_idempotent "http://localhost:8983/fedora" "temp:" localhost).
  reflexivity.
Defined.

Lemma Atoi_is_int s n : strconv_Atoi s = Some n -> is_int n.
Proof.
  unfold strconv_Atoi. destruct s as [|c r]; [discriminate|].
  destruct (if Ascii.eqb c "-" || Ascii.eqb c "+" then r else String c r);
    [discriminate|].
  destruct (parse_digits 0 _) as [un|]; [|discriminate].
  destruct (Z.leb_spec minInt (if Ascii.eqb c "-" then - un else un));
    [|discriminate].
  destruct (Z.leb_spec (if Ascii.eqb c "-" then - un else un) maxInt);
    [|discriminate].
  intros [= <-]. now split.
Qed.

(** A string that contains a byte splits at its last occurrence. *)
Lemma split_at_last_byte c s :
  contains_byte c s = true ->
  exists a b, s = a +:+ String c b /\ contains_byte c b = false.
Proof.
  induction s as [|x r IH]; [discriminate|]. cbn [contains_byte]. intros Hin.
  destruct (contains_byte c r) eqn:Hr.
  - destruct (IH eq_refl) as (a & b & -> & Hb). now exists (String x a), b.
  - rewrite orb_false_r in Hin. apply Ascii.eqb_eq in Hin as ->.
    now exists "", r.
Qed.

(** X6. [Version] is always an [int], and a result other than [-1] is always
    read from the text: the version id then has a dot, and the part after
    its last dot is a numeral that [Atoi] reads as the result. *)
Theorem Version_is_read_from_the_suffix (i : DsInfo) :
  is_int (Version i) /\
  (Version i <> -1 ->
   exists name suffix,
     VersionID i = name +:+ "." +:+ suffix /\
     contains_byte "." suffix = false /\
     strconv_Atoi suffix = Some (Version i)).
Proof.
  destruct (contains_byte "." (VersionID i)) eqn:Hdot.
  - destruct (split_at_last_byte _ _ Hdot) as (name & suffix & Hid & Hsuf).
    pose proof (Version_after_last_dot i name suffix Hid Hsuf) as Hv.
    destruct (strconv_Atoi suffix) as [n|] eqn:Hn; rewrite Hv.
    + split; [exact (Atoi_is_int _ _ Hn)|]. intros _. now exists name, suffix.
    + split; [unfold is_int, minInt, maxInt; lia | intros Hne; contradiction].
  - rewrite (Version_no_dot i Hdot).
    split; [unfold is_int, minInt, maxInt; lia | intros Hne; contradiction].
Qed.

Lemma Version_is_read_from_the_suffix_witness :
  exists name suffix,
    "RELS-EXT.1.12" = name +:+ "." +:+ suffix /\
    contains_byte "." suffix = false /\
    strconv_Atoi suffix = Some 12.
Proof.
  apply (proj2 (Version_is_read_from_the_suffix
                  (with_VersionID DsInfo_zero "RELS-EXT.1.12"))).
  discriminate.
Defined.

(** ** The in-memory store: what [Set] keeps and what lookups see *)

Lemma append_byte_nonempty a c b : a +:+ String c b <> "".
Proof. destruct a; discriminate. Qed.

Lemma Sprintf_d_nonempty n : Sprintf_d n <> "".
Proof.
  unfold Sprintf_d. destruct (n <? 0); [discriminate|].
  destruct (formatBits_head (Z.to_nat (Z.log2 n)) n "") as (c & r & d & Heq & _).
  unfold format_uint. rewrite Heq. discriminate.
Qed.

(** [Set] as one insertion: the value inserted holds the content given and
    an [info] with the five fields present. *)
Lemma Set_as_insert tf id name info0 value :
  exists stored,
    TestFedora_Set tf id name info0 value =
      {| data := <[key_of id name := {| info := stored; content := value |}]>
                   (data tf) |} /\
    backfilled stored /\
    Size stored = (if String.eqb (Size info0) ""
                   then Sprintf_d (Z.of_nat (length value)) else Size info0).
Proof.
  destruct (Set_stores tf id name info0 value)
    as (stored & Hlook & _ & _ & _ & Hst & Hvid & Hloc & Hlt & Hsz).
  exists stored. split; [|split; [|exact Hsz]].
  - unfold TestFedora_Set in *. cbn [data] in Hlook.
    rewrite lookup_insert_eq in Hlook. injection Hlook as Hinfo.
    unfold key_of. do 3 f_equal. exact Hinfo.
  - unfold backfilled. rewrite Hst, Hloc, Hlt, Hsz, Hvid.
    repeat split.
    + destruct (String.eqb_spec (State info0) ""); [discriminate | assumption].
    + destruct (String.eqb_spec (VersionID info0) "");
        [apply append_byte_nonempty | assumption].
    + destruct (String.eqb_spec (Location info0) ""); [|assumption].
      apply (append_byte_nonempty id "+").
    + destruct (String.eqb_spec (LocationType info0) "");
        [discriminate | assumption].
    + destruct (String.eqb_spec (Size info0) "");
        [apply Sprintf_d_nonempty | assumption].
Qed.

(** An [info] with the five fields present is stored as it is. *)
Lemma Set_backfilled_as_is tf id name i value :
  backfilled i ->
  TestFedora_Set tf id name i value =
    {| data := <[key_of id name := {| info := i; content := value |}]> (data tf) |}.
Proof.
  intros (Hst & Hvid & Hloc & Hlt & Hsz). unfold TestFedora_Set.
  apply String.eqb_neq in Hst, Hvid, Hloc, Hlt, Hsz.
  now rewrite Hst, Hvid, Hloc, Hlt, Hsz.
Qed.

(** X7. With no [Size] given, the [Length] that [GetDatastream] reports after
    [Set] is a numeral that [Atoi] reads back as the number of bytes. *)
Theorem Length_parses_to_len
    (tf : TestFedora) (id name : string) (info0 : DsInfo)
    (bytes : list Byte.byte) :
  Size info0 = "" ->
  Z.of_nat (length bytes) <= maxInt ->
  strconv_Atoi
    (Length (snd (fst (TestFedora_GetDatastream
                         (TestFedora_Set tf id name info0 bytes) id name))))
  = Some (Z.of_nat (length bytes)).
Proof.
  intros Hsize Hlen.
  destruct (Set_stores tf id name info0 bytes)
    as (stored & Hlook & _ & _ & _ & _ & _ & _ & _ & Hsz).
  unfold TestFedora_GetDatastream. rewrite Hlook. cbn [fst snd Length info].
  rewrite Hsz, Hsize. cbn [String.eqb]. apply Atoi_Sprintf_d.
  unfold is_int, minInt. lia.
Qed.

Lemma Length_parses_to_len_witness :
  strconv_Atoi
    (Length (snd (fst (TestFedora_GetDatastream
                         (TestFedora_Set NewTestFedora "vecnet:d217qs82g" "content"
                            DsInfo_zero [Byte.x68; Byte.x69; Byte.x21])
                         "vecnet:d217qs82g" "content"))))
  = Some 3.
Proof.
  apply (Length_parses_to_len NewTestFedora "vecnet:d217qs82g" "content"
           DsInfo_zero [Byte.x68; Byte.x69; Byte.x21]).
  - reflexivity.
  - unfold maxInt. simpl. lia.
Defined.

(** X8. [Set] under one key changes no lookup under another key. *)
Theorem Set_leaves_other_keys
    (tf : TestFedora) (id name id' name' : string) (info0 : DsInfo)
    (value : list Byte.byte) :
  key_of id name <> key_of id' name' ->
  TestFedora_GetDatastream (TestFedora_Set tf id name info0 value) id' name'
    = TestFedora_GetDatastream tf id' name' /\
  TestFedora_GetDatastreamInfo (TestFedora_Set tf id name info0 value) id' name'
    = TestFedora_GetDatastreamInfo tf id' name'.
Proof.
  intros Hne. unfold key_of in Hne.
  unfold TestFedora_GetDatastream, TestFedora_GetDatastreamInfo.
  now rewrite (Set_lookup_other tf id name info0 value _ Hne).
Qed.

Lemma Set_leaves_other_keys_witness :
  TestFedora_GetDatastreamInfo
    (TestFedora_Set NewTestFedora "vecnet:d217qs82g" "content" DsInfo_zero [])
    "vecnet:d217qs82g" "thumbnail"
  = (DsInfo_zero, Some ErrNotFound).
Proof.
  rewrite (proj2 (Set_leaves_other_keys NewTestFedora "vecnet:d217qs82g" "content"
                    "vecnet:d217qs82g" "thumbnail" DsInfo_zero [] ltac:(discriminate))).
  reflexivity.
Defined.

(** X9. The two lookups agree on every store and pair: they fail together, the
    only error is [ErrNotFound], a stream is returned exactly when there is
    no error, and the [Length] of the one is the [Size] of the other. *)
Theorem lookups_agree (tf : TestFedora) (id name : string) :
  snd (TestFedora_GetDatastream tf id name)
    = snd (TestFedora_GetDatastreamInfo tf id name) /\
  (snd (TestFedora_GetDatastreamInfo tf id name) = None \/
   snd (TestFedora_GetDatastreamInfo tf id name) = Some ErrNotFound) /\
  (fst (fst (TestFedora_GetDatastream tf id name)) = None <->
   snd (TestFedora_GetDatastream tf id name) <> None) /\
  Length (snd (fst (TestFedora_GetDatastream tf id name)))
    = Size (fst (TestFedora_GetDatastreamInfo tf id name)).
Proof.
  unfold TestFedora_GetDatastream, TestFedora_GetDatastreamInfo.
  destruct (data tf !! (id +:+ "/" +:+ name)) as [v|]; cbn [fst snd Length].
  - split; [reflexivity|]. split; [now left|]. split; [|reflexivity].
    split; [discriminate | intros Hne; now contradiction Hne].
  - split; [reflexivity|]. split; [now right|]. split; [|reflexivity].
    split; [discriminate | reflexivity].
Qed.

Lemma Set_keeps_backfilled tf id name info0 value :
  (forall k v, data tf !! k = Some v -> backfilled (info v)) ->
  forall k v,
    data (TestFedora_Set tf id name info0 value) !! k = Some v ->
    backfilled (info v).
Proof.
  intros Hinv k v.
  destruct (Set_as_insert tf id name info0 value) as (stored & -> & Hb & _).
  cbn [data]. destruct (decide (key_of id name = k)) as [<- | Hne].
  - rewrite lookup_insert_eq. now intros [= <-].
  - rewrite lookup_insert_ne by assumption. apply Hinv.
Qed.

(** X10. In a store filled by [Set] calls every [DsInfo] has a state, a version
    id, a location, a location type and a size: no lookup ever returns one
    of them empty. *)
Theorem stored_infos_are_backfilled
    (calls : list SetCall) (id name : string) (i : DsInfo) :
  TestFedora_GetDatastreamInfo (run_sets NewTestFedora calls) id name = (i, None) ->
  backfilled i.
Proof.
  assert (Hinv : forall k v,
             data (run_sets NewTestFedora calls) !! k = Some v ->
             backfilled (info v)).
  { induction calls as [|c calls IH] using rev_ind.
    - intros k v. cbn. now rewrite lookup_empty.
    - rewrite run_sets_snoc. now apply Set_keeps_backfilled. }
  unfold TestFedora_GetDatastreamInfo.
  destruct (data (run_sets NewTestFedora calls) !! (id +:+ "/" +:+ name))
    as [v|] eqn:Hlook; [|discriminate].
  intros [= <-]. exact (Hinv _ _ Hlook).
Qed.

Lemma stored_infos_are_backfilled_witness :
  backfilled
    {| Label := "thesis"; VersionID := "content.0"; State := "A";
       Checksum := ""; MIMEType := "";
       Location := "vecnet:d217qs82g+content+content.0";
       LocationType := "INTERNAL_ID"; Size := "2" |}.
Proof.
  apply (stored_infos_are_backfilled
           [{| set_id := "vecnet:d217qs82g"; set_dsname := "content";
               set_info := with_Label DsInfo_zero "thesis";
               set_value := [Byte.x68; Byte.x69] |}]
           "vecnet:d217qs82g" "content").
  reflexivity.
Defined.

(** X11. Storing again what [GetDatastreamInfo] returned, with the same content,
    leaves the store as it is: the defaults [Set] filled in are not filled
    in a second time. *)
Theorem Set_of_read_back_info
    (tf : TestFedora) (id name : string) (info0 : DsInfo)
    (value : list Byte.byte) :
  TestFedora_Set (TestFedora_Set tf id name info0 value) id name
    (fst (TestFedora_GetDatastreamInfo
            (TestFedora_Set tf id name info0 value) id name))
    value
  = TestFedora_Set tf id name info0 value.
Proof.
  destruct (Set_as_insert tf id name info0 value) as (stored & -> & Hb & _).
  unfold TestFedora_GetDatastreamInfo. cbn [data].
  fold (key_of id name). rewrite lookup_insert_eq. cbn [fst info].
  rewrite (Set_backfilled_as_is _ id name stored value Hb). cbn [data].
  now rewrite insert_insert_eq.
Qed.

(** X12. Two [Set] calls under different keys can be made in either order. *)
Theorem Sets_under_different_keys_commute
    (tf : TestFedora) (id name id' name' : string) (i i' : DsInfo)
    (v v' : list Byte.byte) :
  key_of id name <> key_of id' name' ->
  TestFedora_Set (TestFedora_Set tf id name i v) id' name' i' v'
  = TestFedora_Set (TestFedora_Set tf id' name' i' v') id name i v.
Proof.
  intros Hne. unfold TestFedora_Set, key_of in *. cbn [data].
  f_equal. apply insert_insert_ne. congruence.
Qed.

Lemma Sets_under_different_keys_commute_witness :
  TestFedora_Set (TestFedora_Set NewTestFedora "a" "content" DsInfo_zero [])
    "a" "thumbnail" DsInfo_zero []
  = TestFedora_Set (TestFedora_Set NewTestFedora "a" "thumbnail" DsInfo_zero [])
      "a" "content" DsInfo_zero [].
Proof.
  apply (Sets_under_different_keys_commute NewTestFedora "a" "content"
           "a" "thumbnail" DsInfo_zero DsInfo_zero [] []).
  discriminate.
Defined.

Lemma run_sets_app tf calls later :
  run_sets tf (calls ++ later) = run_sets (run_sets tf calls) later.
Proof. unfold run_sets. apply fold_left_app. Qed.

Lemma run_sets_lookup_other k later : forall tf,
  Forall (fun c => key_of (set_id c) (set_dsname c) <> k) later ->
  data (run_sets tf later) !! k = data tf !! k.
Proof.
  induction later as [|c later IH]; intros tf Hall; [reflexivity|].
  apply Forall_cons in Hall as [Hc Hlater].
  change (run_sets tf (c :: later))
    with (run_sets (TestFedora_Set tf (set_id c) (set_dsname c) (set_info c)
                      (set_value c)) later).
  rewrite IH by assumption. now apply Set_lookup_other.
Qed.

(** X13. The last [Set] under a key wins, and nothing else matters: after any
    history of [Set] calls, the lookups under the pair of a call that no
    later call shares the key with return what they return right after
    that call on a new store. *)
Theorem last_Set_wins
    (tf : TestFedora) (before later : list SetCall) (c : SetCall) :
  Forall (fun c' => key_of (set_id c') (set_dsname c')
                    <> key_of (set_id c) (set_dsname c)) later ->
  TestFedora_GetDatastream (run_sets tf (before ++ c :: later))
    (set_id c) (set_dsname c)
  = TestFedora_GetDatastream
      (TestFedora_Set NewTestFedora (set_id c) (set_dsname c) (set_info c)
         (set_value c))
      (set_id c) (set_dsname c) /\
  TestFedora_GetDatastreamInfo (run_sets tf (before ++ c :: later))
    (set_id c) (set_dsname c)
  = TestFedora_GetDatastreamInfo
      (TestFedora_Set NewTestFedora (set_id c) (set_dsname c) (set_info c)
         (set_value c))
      (set_id c) (set_dsname c).
Proof.
  intros Hlater.
  assert (Hlook :
    data (run_sets tf (before ++ c :: later)) !! key_of (set_id c) (set_dsname c)
    = data (TestFedora_Set NewTestFedora (set_id c) (set_dsname c) (set_info c)
              (set_value c)) !! key_of (set_id c) (set_dsname c)).
  { rewrite run_sets_app.
    change (run_sets (run_sets tf before) (c :: later))
      with (run_sets (TestFedora_Set (run_sets tf before) (set_id c)
                        (set_dsname c) (set_info c) (set_value c)) later).
    rewrite run_sets_lookup_other by assumption.
    destruct (Set_stores (run_sets tf before) (set_id c) (set_dsname c)
                (set_info c) (set_value c)) as (s1 & H1 & _).
    unfold TestFedora_Set, key_of. cbn [data].
    now rewrite !lookup_insert_eq. }
  unfold TestFedora_GetDatastream, TestFedora_GetDatastreamInfo.
  unfold key_of in Hlook. now rewrite Hlook.
Qed.

Lemma last_Set_wins_witness :
  TestFedora_GetDatastreamInfo
    (run_sets NewTestFedora
       [{| set_id := "a"; set_dsname := "content";
           set_info := with_Label DsInfo_zero "first"; set_value := [] |};
        {| set_id := "a"; set_dsname := "content";
           set_info := with_Label DsInfo_zero "second"; set_value := [Byte.x68] |};
        {| set_id := "a"; set_dsname := "thumbnail";
           set_info := DsInfo_zero; set_value := [] |}])
    "a" "content"
  = TestFedora_GetDatastreamInfo
      (TestFedora_Set NewTestFedora "a" "content"
         (with_Label DsInfo_zero "second") [Byte.x68])
      "a" "content".
Proof.
  apply (proj2 (last_Set_wins NewTestFedora
                  [{| set_id := "a"; set_dsname := "content";
                      set_info := with_Label DsInfo_zero "first"; set_value := [] |}]
                  [{| set_id := "a"; set_dsname := "thumbnail";
                      set_info := DsInfo_zero; set_value := [] |}]
                  {| set_id := "a"; set_dsname := "content";
                     set_info := with_Label DsInfo_zero "second";
                     set_value := [Byte.x68] |}
                  ltac:(repeat constructor; discriminate))).
Defined.

(** X14. A store filled by [Set] calls finds a pair exactly when one of the
    calls was made under the key of the pair. *)
Theorem found_iff_Set_under_key (calls : list SetCall) (id name : string) :
  snd (TestFedora_GetDatastreamInfo (run_sets NewTestFedora calls) id name) = None
  <-> Exists (fun c => key_of (set_id c) (set_dsname c) = key_of id name) calls.
Proof.
  unfold TestFedora_GetDatastreamInfo. fold (key_of id name).
  induction calls as [|c calls IH] using rev_ind.
  - cbn. rewrite lookup_empty. split; [discriminate | intros H; inversion H].
  - rewrite run_sets_snoc, Exists_app, Exists_cons, Exists_nil.
    destruct (decide (key_of (set_id c) (set_dsname c) = key_of id name))
      as [Heq | Hne].
    + destruct (Set_stores (run_sets NewTestFedora calls) (set_id c)
                  (set_dsname c) (set_info c) (set_value c)) as (s1 & H1 & _).
      fold (key_of (set_id c) (set_dsname c)) in H1. rewrite <- Heq, H1.
      split; [intros _; right; now left | reflexivity].
    + rewrite (Set_lookup_other _ _ _ _ _ _ Hne), IH. tauto.
Qed.

(** ** The earlier state of the package *)

(** X15. The earlier store is a plain map: a [Set] is read back by
    [GetDatastream] under the same pair as a stream over exactly the bytes
    given, whatever was stored before; it changes no lookup under another
    key; and a pair with no entry gets an error that names the key and is
    not [FedoraNotFound]. *)
Theorem Early_store_laws
    (tf : Early.TestFedora) (id name : string) (value : list Byte.byte) :
  Early.TestFedora_GetDatastream (Early.TestFedora_Set tf id name value) id name
    = (Some (NopCloser (bytes_NewReader value)), None) /\
  (forall fuel, (length value + 2 <= fuel)%nat ->
     ioutil_ReadAll fuel (bytes_NewReader value) = Some value) /\
  (forall value0,
     Early.TestFedora_Set (Early.TestFedora_Set tf id name value0) id name value
     = Early.TestFedora_Set tf id name value) /\
  (forall id' name',
     key_of id name <> key_of id' name' ->
     Early.TestFedora_GetDatastream (Early.TestFedora_Set tf id name value)
       id' name'
     = Early.TestFedora_GetDatastream tf id' name') /\
  (Early.data tf !! key_of id name = None ->
   Early.TestFedora_GetDatastream tf id name
     = (None, Some (Errorf ("No such element " +:+ id +:+ "/" +:+ name)))) /\
  snd (Early.TestFedora_GetDatastream tf id name) <> Some Early.FedoraNotFound.
Proof.
  unfold Early.TestFedora_GetDatastream, Early.TestFedora_Set, key_of.
  cbn [Early.data].
  split; [now rewrite lookup_insert_eq|].
  split; [intros fuel Hfuel; now apply ReadAll_NewReader|].
  split; [intros value0; now rewrite insert_insert_eq|].
  split; [intros id' name' Hne; now rewrite lookup_insert_ne|].
  split; [now intros ->|].
  destruct (Early.data tf !! (id +:+ "/" +:+ name)); discriminate.
Qed.

Lemma Early_store_laws_witness :
  ioutil_ReadAll 3 (bytes_NewReader [Byte.x68]) = Some [Byte.x68] /\
  Early.TestFedora_GetDatastream
    (Early.TestFedora_Set Early.newTestFedora "a" "content" [Byte.x68])
    "a" "thumbnail"
  = (None, Some (Errorf "No such element a/thumbnail")).
Proof.
  split.
  - apply (proj1 (proj2 (Early_store_laws Early.newTestFedora "a" "content"
                           [Byte.x68]))).
    simpl. lia.
  - rewrite (proj1 (proj2 (proj2 (proj2
               (Early_store_laws Early.newTestFedora "a" "content" [Byte.x68]))))
               "a" "thumbnail" ltac:(discriminate)).
    apply (proj1 (proj2 (proj2 (proj2 (proj2
             (Early_store_laws Early.newTestFedora "a" "thumbnail" [])))))).
    reflexivity.
Defined.

(** X16. The client's [GetDatastream] extends the earlier one: for every answer
    of the transport both issue the same request, close the body in the
    same cases and return the same stream, type, length and disposition;
    they return the same error, except that for a status other than 200,
    404 and 401 the text of the error changed from [Got status N] to
    [Received status N]. *)
Theorem GetDatastream_extends_the_earlier_one
    (transport : list Event -> string -> Response + error)
    (rf : remoteFedora) (id dsname : string) (tr : list Event) :
  let early := Early.remoteFedora_GetDatastream transport rf id dsname tr in
  let now_ := remoteFedora_GetDatastream transport rf id dsname tr in
  snd now_ = snd early /\
  fst (fst (fst now_)) = fst (fst (fst early)) /\
  Type_ (snd (fst (fst now_))) = Early.Type_ (snd (fst (fst early))) /\
  Length (snd (fst (fst now_))) = Early.Length (snd (fst (fst early))) /\
  Disposition (snd (fst (fst now_))) = Early.Disposition (snd (fst (fst early))) /\
  match transport tr (content_url (hostpath rf) (namespace rf) id dsname) with
  | inr err => snd (fst now_) = Some err /\ snd (fst early) = Some err
  | inl r =>
      if (StatusCode r =? 200) || (StatusCode r =? 404) || (StatusCode r =? 401)
      then snd (fst now_) = snd (fst early)
      else snd (fst early)
             = Some (Errorf ("Got status " +:+ Sprintf_d (StatusCode r)
                             +:+ " from fedora")) /\
           snd (fst now_)
             = Some (Errorf ("Received status " +:+ Sprintf_d (StatusCode r)
                             +:+ " from fedora"))
  end.
Proof.
  unfold Early.remoteFedora_GetDatastream, remoteFedora_GetDatastream,
    bind, http_Get, content_url.
  destruct (transport tr _) as [r | err]; [|cbn; repeat split].
  destruct (StatusCode r =? 200); cbn [negb orb]; [cbn; repeat split|].
  unfold Body_Close, ret.
  destruct (StatusCode r =? 404); [cbn; repeat split|].
  destruct (StatusCode r =? 401); cbn; repeat split.
Qed.

(** ** The log file of the server *)

Section LogFile.

Import Main.

Variable OpenFile_error : string -> World -> option string.

(** One [Reopen]: the logger ends up on the one file that is open, also
    when the process exits because the file cannot be opened. *)
Lemma Reopen_one_log_file li w :
  one_log_file w -> f li = log_output w ->
  match Reopen OpenFile_error li w with
  | Done li' w' =>
      one_log_file w' /\ f li' = log_output w' /\ name li' = name li
  | Exit code w' =>
      code = 1 /\ one_log_file w' /\ log_output w' = log_output w
  end.
Proof.
  intros [Hopen Hfresh] Hf. unfold Reopen.
  destruct (String.eqb (name li) ""); [repeat split; assumption|].
  unfold os_OpenFile.
  destruct (f li) as [old|] eqn:Hli.
  - cbn [log_Println].
    destruct (OpenFile_error _ _) as [err|].
    + unfold log_Fatal. repeat split; assumption.
    + rewrite <- Hf in Hopen. unfold one_log_file.
      cbn [log_SetOutput File_Close log_Println open_files log_output
           next_handle f name].
      rewrite Hopen in *. apply Forall_cons in Hfresh as [Hold _].
      cbn [app List.filter]. rewrite Nat.eqb_refl. cbn [negb].
      destruct (Nat.eqb_spec (next_handle w) old) as [Heq | _]; [lia|].
      cbn [negb]. repeat split. repeat constructor.
  - destruct (OpenFile_error _ _) as [err|].
    + unfold log_Fatal. repeat split; assumption.
    + rewrite <- Hf in Hopen. unfold one_log_file.
      cbn [log_SetOutput open_files log_output next_handle f name].
      rewrite Hopen. cbn [app]. repeat split. repeat constructor.
Qed.

(** X17. However many signals arrive and whether or not the file can be opened,
    the logger writes to the one log file that is open (or to standard
    error with none open): a rotation never leaves an old file open and
    never leaves the logger on a closed one.  If the process exits, it
    exits with code 1. *)
Theorem signalHandler_keeps_one_log_file (sig : list Signal) :
  forall (li : loginfo) (w : World),
  one_log_file w -> f li = log_output w ->
  match signalHandler OpenFile_error sig li w with
  | Done li' w' =>
      one_log_file w' /\ f li' = log_output w' /\ name li' = name li
  | Exit code w' => code = 1 /\ one_log_file w'
  end.
Proof.
  induction sig as [|s sig IH]; intros li w Hw Hf;
    [split; [exact Hw | split; [exact Hf | reflexivity]]|].
  cbn [signalHandler].
  assert (Hstep : forall li0 w0, one_log_file w0 -> f li0 = log_output w0 ->
            name li0 = name li ->
            match signalHandler OpenFile_error sig li0 w0 with
            | Done li' w' =>
                one_log_file w' /\ f li' = log_output w' /\ name li' = name li
            | Exit code w' => code = 1 /\ one_log_file w'
            end).
  { intros li0 w0 Hw0 Hf0 Hn. specialize (IH li0 w0 Hw0 Hf0).
    destruct (signalHandler OpenFile_error sig li0 w0); [|exact IH].
    destruct IH as (H1 & H2 & H3).
    split; [exact H1 | split; [exact H2 | congruence]]. }
  destruct s; try (apply Hstep; [exact Hw | exact Hf | reflexivity]).
  pose proof (Reopen_one_log_file li (log_Println [ArgString "Got"; ArgSignal SIGUSR1] w)
               Hw Hf) as Hre.
  destruct (Reopen OpenFile_error li _) as [li' w' | code w'].
  - destruct Hre as (Hw' & Hf' & Hn'). now apply Hstep.
  - destruct Hre as (Hc & Hw' & _). now split.
Qed.

(** X18. Signals are only logged, unless [SIGUSR1] arrives and a log file name
    is set: with no name, or with no [SIGUSR1] among the signals, the
    handler opens and closes nothing, leaves the output of the logger where
    it is and adds one line per signal. *)
Theorem only_SIGUSR1_with_a_name_reopens (sig : list Signal) :
  forall (li : loginfo) (w : World),
  name li = "" \/ ~ In SIGUSR1 sig ->
  signalHandler OpenFile_error sig li w =
  Done li {| next_handle := next_handle w; open_files := open_files w;
             log_output := log_output w;
             log_lines := log_lines w ++
               map (fun s => (log_output w, [ArgString "Got"; ArgSignal s])) sig |}.
Proof.
  induction sig as [|s sig IH]; intros li w Hor.
  - cbn. rewrite app_nil_r. now destruct w.
  - assert (Hrest : name li = "" \/ ~ In SIGUSR1 sig)
      by (destruct Hor as [? | Hnin]; [now left | right; intros Hin; apply Hnin; now right]).
    assert (Hnext :
      signalHandler OpenFile_error sig li
        (log_Println [ArgString "Got"; ArgSignal s] w) =
      Done li {| next_handle := next_handle w; open_files := open_files w;
                 log_output := log_output w;
                 log_lines := log_lines w ++
                   map (fun s => (log_output w, [ArgString "Got"; ArgSignal s]))
                     (s :: sig) |}).
    { rewrite (IH li _ Hrest). cbn [log_Println next_handle open_files
                                     log_output log_lines map].
      now rewrite <- app_assoc. }
    cbn [signalHandler]. destruct s; try exact Hnext.
    destruct Hor as [Hname | Hnin]; [|exfalso; apply Hnin; now left].
    unfold Reopen. rewrite Hname. cbn [String.eqb]. exact Hnext.
Qed.

Lemma logged_signals_app l1 l2 :
  logged_signals (l1 ++ l2) = logged_signals l1 ++ logged_signals l2.
Proof. unfold logged_signals. apply flat_map_app. Qed.

Lemma Reopen_logs_no_signal li w :
  match Reopen OpenFile_error li w with
  | Done _ w' | Exit _ w' =>
      logged_signals (log_lines w') = logged_signals (log_lines w)
  end.
Proof.
  unfold Reopen. destruct (String.eqb (name li) ""); [reflexivity|].
  unfold os_OpenFile, log_Fatal.
  destruct (f li); cbn [log_Println log_lines];
    destruct (OpenFile_error _ _);
    cbn [log_Println log_SetOutput File_Close log_lines];
    rewrite ?logged_signals_app; cbn; now rewrite ?app_nil_r.
Qed.

(** X19. Every signal is logged, in order: when the handler finishes, the log
    reports exactly the signals delivered; when the process exits (which
    happens only in a [SIGUSR1]), it reports the signals up to and with
    that [SIGUSR1]. *)
Theorem every_signal_is_logged (sig : list Signal) :
  forall (li : loginfo) (w : World),
  match signalHandler OpenFile_error sig li w with
  | Done _ w' =>
      logged_signals (log_lines w') = logged_signals (log_lines w) ++ sig
  | Exit _ w' =>
      exists before after,
        sig = before ++ SIGUSR1 :: after /\
        logged_signals (log_lines w')
          = logged_signals (log_lines w) ++ before ++ [SIGUSR1]
  end.
Proof.
  induction sig as [|s sig IH]; intros li w; [cbn; now rewrite app_nil_r|].
  cbn [signalHandler].
  assert (Hstep : forall li0 w0,
            logged_signals (log_lines w0) = logged_signals (log_lines w) ++ [s] ->
            match signalHandler OpenFile_error sig li0 w0 with
            | Done _ w' =>
                logged_signals (log_lines w')
                  = logged_signals (log_lines w) ++ s :: sig
            | Exit _ w' =>
                exists before after,
                  s :: sig = before ++ SIGUSR1 :: after /\
                  logged_signals (log_lines w')
                    = logged_signals (log_lines w) ++ before ++ [SIGUSR1]
            end).
  { intros li0 w0 H0. specialize (IH li0 w0).
    destruct (signalHandler OpenFile_error sig li0 w0).
    - rewrite IH, H0, <- app_assoc. reflexivity.
    - destruct IH as (before & after & -> & Hlog).
      exists (s :: before), after. split; [reflexivity|].
      rewrite Hlog, H0, <- app_assoc. reflexivity. }
  assert (Hgot : logged_signals (log_lines (log_Println [ArgString "Got"; ArgSignal s] w))
                 = logged_signals (log_lines w) ++ [s]).
  { cbn [log_Println log_lines]. now rewrite logged_signals_app. }
  destruct s; try (apply Hstep; exact Hgot).
  pose proof (Reopen_logs_no_signal li
                (log_Println [ArgString "Got"; ArgSignal SIGUSR1] w)) as Hre.
  destruct (Reopen OpenFile_error li _) as [li' w' | code w'].
  - apply Hstep. now rewrite Hre.
  - exists [], sig. split; [reflexivity|]. now rewrite Hre.
Qed.

Lemma Reopen_opens_one_file li w li' w' :
  name li <> "" ->
  Reopen OpenFile_error li w = Done li' w' ->
  next_handle w' = S (next_handle w) /\ f li' = Some (next_handle w) /\
  name li' = name li.
Proof.
  intros Hname. unfold Reopen. apply String.eqb_neq in Hname. rewrite Hname.
  unfold os_OpenFile, log_Fatal.
  destruct (f li); cbn [log_Println next_handle];
    destruct (OpenFile_error _ _); try discriminate;
    intros [= <- <-]; repeat split.
Qed.

(** X20. With a log file name set, every [SIGUSR1] opens exactly one file, and
    after the last one the logger holds the file opened last. *)
Theorem SIGUSR1_opens_one_file (sig : list Signal) :
  forall (li li' : loginfo) (w w' : World),
  name li <> "" ->
  signalHandler OpenFile_error sig li w = Done li' w' ->
  next_handle w' = (next_handle w + count_occ Signal_eq_dec sig SIGUSR1)%nat /\
  (In SIGUSR1 sig \/ f li = Some (Nat.pred (next_handle w)) ->
   f li' = Some (Nat.pred (next_handle w'))).
Proof.
  induction sig as [|s sig IH]; intros li li' w w' Hname Hrun.
  - cbn in Hrun. injection Hrun as <- <-. cbn [count_occ].
    split; [lia|]. intros [[] | Hf]. exact Hf.
  - cbn [signalHandler] in Hrun.
    destruct (decide (s = SIGUSR1)) as [-> | Hs].
    + destruct (Reopen OpenFile_error li _) as [li1 w1 | code w1] eqn:Hre;
        [|discriminate].
      destruct (Reopen_opens_one_file _ _ _ _ Hname Hre) as (Hn1 & Hf1 & Hname1).
      rewrite <- Hname1 in Hname.
      destruct (IH li1 li' w1 w' Hname Hrun) as (Hn & Hf).
      cbn [log_Println next_handle] in Hn1, Hf1.
      rewrite count_occ_cons_eq by reflexivity. split; [lia|].
      intros _. apply Hf. right. now rewrite Hf1, Hn1.
    + assert (Hrun' : signalHandler OpenFile_error sig li
                        (log_Println [ArgString "Got"; ArgSignal s] w)
                      = Done li' w') by (destruct s; congruence).
      destruct (IH li li' _ w' Hname Hrun') as (Hn & Hf).
      cbn [log_Println next_handle] in Hn, Hf.
      rewrite count_occ_cons_neq by assumption. split; [exact Hn|].
      intros [[Heq | Hin] | Hli]; [congruence | apply Hf; now left
                                   | apply Hf; now right].
Qed.

End LogFile.

Lemma signalHandler_keeps_one_log_file_witness :
  match Main.signalHandler (Main.open_fails_after 2)
          [Main.SIGUSR1; Main.SIGHUP; Main.SIGUSR1; Main.SIGUSR1]
          (Main.NewReopener "disadis.log") Main.start with
  | Main.Done _ _ => False
  | Main.Exit code w' =>
      code = 1 /\ Main.open_files w' = [1%nat] /\ Main.log_output w' = Some 1%nat
  end.
Proof.
  pose proof (signalHandler_keeps_one_log_file (Main.open_fails_after 2)
                [Main.SIGUSR1; Main.SIGHUP; Main.SIGUSR1; Main.SIGUSR1]
                (Main.NewReopener "disadis.log") Main.start
                (conj eq_refl (Forall_nil_2 _)) eq_refl) as Hinv.
  cbv in Hinv |- *. destruct Hinv as (Hcode & Hopen & _).
  split; [exact Hcode | split; [exact Hopen | reflexivity]].
Defined.

Lemma only_SIGUSR1_with_a_name_reopens_witness :
  Main.signalHandler Main.never_fails [Main.SIGHUP; Main.SIGUSR2]
    (Main.NewReopener "disadis.log") Main.start
  = Main.Done (Main.NewReopener "disadis.log")
      {| Main.next_handle := 0; Main.open_files := []; Main.log_output := None;
         Main.log_lines :=
           [(None, [Main.ArgString "Got"; Main.ArgSignal Main.SIGHUP]);
            (None, [Main.ArgString "Got"; Main.ArgSignal Main.SIGUSR2])] |}.
Proof.
  apply (only_SIGUSR1_with_a_name_reopens Main.never_fails
           [Main.SIGHUP; Main.SIGUSR2] (Main.NewReopener "disadis.log")
           Main.start).
  right. intros [Hin | [Hin | []]]; discriminate Hin.
Defined.

Lemma SIGUSR1_opens_one_file_witness :
  exists li' w',
    Main.signalHandler Main.never_fails [Main.SIGUSR1; Main.SIGHUP; Main.SIGUSR1]
      (Main.NewReopener "disadis.log") Main.start = Main.Done li' w' /\
    Main.next_handle w' = 2%nat /\ Main.f li' = Some 1%nat.
Proof.
  eexists _, _. split; [reflexivity|].
  destruct (SIGUSR1_opens_one_file Main.never_fails
              [Main.SIGUSR1; Main.SIGHUP; Main.SIGUSR1]
              (Main.NewReopener "disadis.log") _ Main.start _
              ltac:(discriminate) eq_refl) as [Hn Hf].
  split; [exact Hn | apply Hf; left; now left].
Defined.
